(** * Romanized Nepali typing: the key table, [romanToNepali] and the
      text-area binder of [nepali_unicode_typing.py]

    The program is the JavaScript that [inject_custom_keyboard] places in the
    page.  The Python string that carries it is not a raw string, so every
    [\\uXXXX] of the Python source reaches the browser as the JavaScript escape
    [\uXXXX] (one UTF-16 code unit) and the key written with four backslashes
    is the one-character string holding a backslash.

    JavaScript strings are sequences of UTF-16 code units; [romanText.length]
    and [romanText[i]] count and index code units, and so do the selection
    offsets of a text area.  A string is therefore a [list N] of code units. *)

From stdpp Require Import gmap strings list fin_maps.

Abbreviation jsstring := (list N).

(** ** Outcomes of a run *)

(** A run of modelled code either finishes, or exhausts the fuel that bounds
    the recursion of the model, or leaves the modelled fragment of JavaScript
    (a value whose text is implementation-defined would have to be printed). *)
Inductive outcome (A : Type) : Type :=
  | Done (a : A)
  | OutOfFuel
  | Unmodelled.
Arguments Done {A} a.
Arguments OutOfFuel {A}.
Arguments Unmodelled {A}.

#[global] Instance outcome_ret : MRet outcome := λ A a, Done a.
#[global] Instance outcome_bind : MBind outcome := λ A B f m,
  match m with
  | Done a => f a
  | OutOfFuel => OutOfFuel
  | Unmodelled => Unmodelled
  end.

Module JS.

(** ASCII text of the source as code units. *)
Definition js (s : string) : jsstring :=
  (λ a, Ascii.N_of_ascii a) <$> String.list_ascii_of_string s.

(** The string literal ["\uXXXX"]: one code unit. *)
Definition u (unit : N) : jsstring := [unit].

(** The values the modelled code handles: [undefined], strings, and the
    built-in members every object inherits from [Object.prototype]. *)
Inductive jsval : Type :=
  | undefined
  | str (s : jsstring)
  | native (name : jsstring).

#[global] Instance jsval_eq_dec : EqDecision jsval.
Proof. solve_decision. Defined.

(** ToBoolean: [undefined] and the empty string are falsy. *)
Definition ToBoolean (v : jsval) : bool :=
  match v with
  | undefined => false
  | str s => negb (bool_decide (s = []))
  | native _ => true
  end.

(** ToString, as used by property access and by [+=] on a string.  The text of
    a built-in function is implementation-defined and is left unmodelled. *)
Definition ToString (v : jsval) : outcome jsstring :=
  match v with
  | undefined => Done (js "undefined")
  | str s => Done s
  | native _ => Unmodelled
  end.

(** [a || b] *)
Definition or (a b : jsval) : jsval := if ToBoolean a then a else b.

(** [s[i]]: the one-unit string at index [i], [undefined] out of range. *)
Definition index (s : jsstring) (i : nat) : jsval :=
  match s !! i with
  | Some c => str [c]
  | None => undefined
  end.

(** Surrogate code units, and the number of code points of a string: a high
    surrogate followed by a low one counts once. *)
Definition is_high_surrogate (c : N) : bool :=
  ((0xD800 <=? c) && (c <=? 0xDBFF))%N.

Definition is_low_surrogate (c : N) : bool :=
  ((0xDC00 <=? c) && (c <=? 0xDFFF))%N.

Fixpoint code_points (s : jsstring) : nat :=
  match s with
  | [] => 0
  | c :: rest =>
      match rest with
      | d :: rest' =>
          if is_high_surrogate c && is_low_surrogate d
          then S (code_points rest')
          else S (code_points rest)
      | [] => 1
      end
  end.

(** Property names of [Object.prototype] (ECMAScript, with Annex B). *)
Definition Object_prototype : gset jsstring :=
  list_to_set
    [ js "constructor"; js "hasOwnProperty"; js "isPrototypeOf";
      js "propertyIsEnumerable"; js "toLocaleString"; js "toString";
      js "valueOf"; js "__defineGetter__"; js "__defineSetter__";
      js "__lookupGetter__"; js "__lookupSetter__"; js "__proto__" ].

(** An object literal: its properties are defined in source order, a later
    definition of a name replacing an earlier one. *)
Definition object_literal (props : list (jsstring * jsstring))
  : gmap jsstring jsstring :=
  foldl (λ o p, <[p.1 := p.2]> o) ∅ props.

(** [o[key]] for an object made by a literal: own properties first, then the
    prototype chain, which for a literal is [Object.prototype]. *)
Definition get (o : gmap jsstring jsstring) (key : jsval) : outcome jsval :=
  name ← ToString key;
  mret (match o !! name with
        | Some s => str s
        | None =>
            if bool_decide (name ∈ Object_prototype) then native name
            else undefined
        end).

End JS.

Import JS.

(** ** The key table *)

(** One entry of [keyToNep]: a key of the QWERTY layout and the code unit of
    its [\uXXXX] value. *)
Definition key (k : string) (unit : N) : jsstring * jsstring := (js k, u unit).

Definition keyToNep_entries : list (jsstring * jsstring) :=
  [ key "a" 0x093E; key "b" 0x092C; key "c" 0x091B; key "d" 0x0926; key "e" 0x0947;
    key "f" 0x0909; key "g" 0x0917; key "h" 0x0939; key "i" 0x093F; key "j" 0x091C;
    key "k" 0x0915; key "l" 0x0932; key "m" 0x092E; key "n" 0x0928; key "o" 0x094B;
    key "p" 0x092A; key "q" 0x091F; key "r" 0x0930; key "s" 0x0938; key "t" 0x0924;
    key "u" 0x0941; key "v" 0x0935; key "w" 0x094C; key "x" 0x0921; key "y" 0x092F;
    key "z" 0x0937;
    key "A" 0x0906; key "B" 0x092D; key "C" 0x091A; key "D" 0x0927; key "E" 0x0948;
    key "F" 0x090A; key "G" 0x0918; key "H" 0x0905; key "I" 0x0940; key "J" 0x091D;
    key "K" 0x0916; key "L" 0x0933; key "M" 0x0902; key "N" 0x0923; key "O" 0x0913;
    key "P" 0x092B; key "Q" 0x0920; key "R" 0x0943; key "S" 0x0936; key "T" 0x0925;
    key "U" 0x0942; key "V" 0x0901; key "W" 0x0914; key "X" 0x0922; key "Y" 0x091E;
    key "Z" 0x090B;
    key "0" 0x0966; key "1" 0x0967; key "2" 0x0968; key "3" 0x0969; key "4" 0x096A;
    key "5" 0x096B; key "6" 0x096C; key "7" 0x096D; key "8" 0x096E; key "9" 0x096F;
    key "`" 0x093D; key "~" 0x093C; key "_" 0x0952; key "+" 0x200C; key "=" 0x200D;
    key "[" 0x0907; key "{" 0x0908; key "]" 0x090F; key "}" 0x0910;
    (* the backslash key, code unit 0x5C *)
    (u 0x5C, u 0x0950); key "|" 0x0903; key "<" 0x0919; key "." 0x0964; key ">" 0x0965;
    key "/" 0x094D; (js "?", js "?") ].

Definition keyToNep : gmap jsstring jsstring := object_literal keyToNep_entries.

(** ** [romanToNepali] *)

(** The [for] loop of [romanToNepali]: [i] is the loop counter and
    [nepaliText] the accumulator; one unit of fuel is spent per iteration. *)
Fixpoint romanToNepali_loop (fuel : nat) (romanText : jsstring) (i : nat)
    (nepaliText : jsstring) : outcome jsstring :=
  if bool_decide (i < length romanText) then
    match fuel with
    | O => OutOfFuel
    | S fuel' =>
        let char := index romanText i in
        mapped ← get keyToNep char;
        piece ← ToString (or mapped char);
        romanToNepali_loop fuel' romanText (S i) (nepaliText ++ piece)
    end
  else Done nepaliText.

Definition romanToNepali (romanText : jsstring) : outcome jsstring :=
  if negb (ToBoolean (str romanText)) then Done []
  else romanToNepali_loop (length romanText) romanText 0 [].

(** ** The transform as the specification words it *)

(** What the table does to one character: the mapped value when the character
    is a key, the character itself otherwise. *)
Definition transliterate_char (c : N) : jsstring :=
  default [c] (keyToNep !! [c]).

(** The character-by-character fold of the input, in order. *)
Definition transliterate (input : jsstring) : jsstring :=
  foldl (λ output c, output ++ transliterate_char c) [] input.

(** The single code unit [transliterate_char] yields (every value of the table
    is one code unit long, see [keyToNep_shape]). *)
Definition transliterate_unit (c : N) : N :=
  match keyToNep !! [c] with
  | Some [d] => d
  | _ => c
  end.

(** The output alphabet: the Devanagari block, the zero-width non-joiner and
    joiner, and whatever else the table has as a value. *)
Definition output_alphabet (c : N) : bool :=
  bool_decide (0x0900 ≤ c ≤ 0x097F)%N
  || bool_decide (c = 0x200C%N) || bool_decide (c = 0x200D%N)
  || bool_decide ([c] ∈ (map_to_list keyToNep).*2).

(** The sixteen punctuation keys, in the order of the table. *)
Definition punctuation_keys : jsstring :=
  js "`~_+=[{]}" ++ u 0x5C ++ js "|<.>/?".

(** The shape of a table entry: a one-unit ASCII key, and a one-unit value in
    the range U+0900 .. U+200D, or the entry of the question mark. *)
Definition entry_shape (k v : jsstring) : bool :=
  match k, v with
  | [c], [d] =>
      (c <? 0x80)%N
      && (((0x0900 <=? d) && (d <=? 0x200D))%N
          || ((c =? 0x3F) && (d =? 0x3F))%N)
  | _, _ => false
  end.

(** ** The text areas of the host document *)

Module Dom.

(** The API value of a text area is its raw value with newlines normalized:
    every CR LF pair and every remaining CR becomes LF. *)
Fixpoint normalize_newlines (s : jsstring) : jsstring :=
  match s with
  | [] => []
  | c :: rest =>
      if bool_decide (c = 0x0D%N) then
        match rest with
        | d :: rest' =>
            if bool_decide (d = 0x0A%N) then 0x0A%N :: normalize_newlines rest'
            else 0x0A%N :: normalize_newlines rest
        | [] => [0x0A%N]
        end
      else c :: normalize_newlines rest
  end.

(** A [<textarea>] element.  [listeners] holds the ['input'] listeners that
    [setupNepaliTyping] registered, in registration order; each is a closure
    over its own [isConverting], which is what the list stores. *)
Record Textarea : Type := mkTextarea {
  raw_value : jsstring;
  selection_start : nat;
  selection_end : nat;
  attributes : gmap jsstring jsstring;
  listeners : list bool
}.

(** [this.value] *)
Definition value (t : Textarea) : jsstring := normalize_newlines (raw_value t).

(** [this.selectionStart] *)
Definition selectionStart (t : Textarea) : nat := selection_start t.

(** [this.selectionEnd] *)
Definition selectionEnd (t : Textarea) : nat := selection_end t.

(** [this.value = v]: when the API value changes, the text entry cursor moves
    to the end of the text and nothing is selected any more. *)
Definition set_value (v : jsstring) (t : Textarea) : Textarea :=
  let t' := mkTextarea v (selection_start t) (selection_end t)
                       (attributes t) (listeners t) in
  if bool_decide (value t' = value t) then t'
  else mkTextarea v (length (value t')) (length (value t'))
                  (attributes t) (listeners t).

(** Setting the selection range: offsets past the end point at the end, and an
    end that is not after the start collapses the selection at the end. *)
Definition set_selection_range (start end_ : nat) (t : Textarea) : Textarea :=
  let len := length (value t) in
  let e := end_ `min` len in
  let s := start `min` len in
  mkTextarea (raw_value t) (s `min` e) e (attributes t) (listeners t).

(** [this.selectionEnd = v] *)
Definition set_selectionEnd (v : nat) (t : Textarea) : Textarea :=
  set_selection_range (selection_start t) v t.

(** [this.selectionStart = v] *)
Definition set_selectionStart (v : nat) (t : Textarea) : Textarea :=
  let end_ := selection_end t in
  let end_ := if bool_decide (end_ < v) then v else end_ in
  set_selection_range v end_ t.

(** [textarea.hasAttribute(name)] *)
Definition hasAttribute (name : jsstring) (t : Textarea) : bool :=
  bool_decide (is_Some (attributes t !! name)).

(** [textarea.setAttribute(name, v)] *)
Definition setAttribute (name v : jsstring) (t : Textarea) : Textarea :=
  mkTextarea (raw_value t) (selection_start t) (selection_end t)
             (<[name := v]> (attributes t)) (listeners t).

(** [textarea.addEventListener('input', f)] for a new closure [f] whose
    [isConverting] is initialised to [isConverting]. *)
Definition addEventListener_input (isConverting : bool) (t : Textarea)
  : Textarea :=
  mkTextarea (raw_value t) (selection_start t) (selection_end t)
             (attributes t) (listeners t ++ [isConverting]).

(** Assignment to the [isConverting] of the [k]-th listener. *)
Definition set_isConverting (k : nat) (b : bool) (t : Textarea) : Textarea :=
  mkTextarea (raw_value t) (selection_start t) (selection_end t)
             (attributes t) (<[k := b]> (listeners t)).

(** What the rest of the page can observe of a handler run. *)
Inductive effect : Type :=
  | ValueWritten (v : jsstring)
  | InputDispatched.

#[global] Instance effect_eq_dec : EqDecision effect.
Proof. solve_decision. Defined.

(** What a handler run does, step by step: the effects the page can observe,
    and what each listener does when it is entered.  A listener that finds
    its [isConverting] set returns at the guard; one that finds it clear sets
    it and converts the value it reads. *)
Inductive action : Type :=
  | Returned_at_guard (k : nat)
  | Converted (k : nat) (originalValue : jsstring)
  | Visible (e : effect).

#[global] Instance action_eq_dec : EqDecision action.
Proof. solve_decision. Defined.

(** The observable part of a run. *)
Definition visible (steps : list action) : list effect :=
  omap (λ a, match a with Visible e => Some e | _ => None end) steps.

(** Running the listeners [ks] of a text area one after the other. *)
Fixpoint run_listeners {E : Type}
    (run : nat → Textarea → outcome (Textarea * list E))
    (ks : list nat) (t : Textarea) : outcome (Textarea * list E) :=
  match ks with
  | [] => Done (t, [])
  | k :: ks' =>
      '(t1, log1) ← run k t;
      '(t2, log2) ← run_listeners run ks' t1;
      mret (t2, log1 ++ log2)
  end.

(** [this.dispatchEvent(new Event('input', { bubbles: true }))]: the event is
    delivered synchronously to the listeners registered at that moment. *)
Definition dispatchEvent_input
    (run : nat → Textarea → outcome (Textarea * list action))
    (t : Textarea) : outcome (Textarea * list action) :=
  '(t', steps) ← run_listeners run (seq 0 (length (listeners t))) t;
  mret (t', Visible InputDispatched :: steps).

End Dom.

Import Dom.

(** ** The binder *)

(** The ['input'] listener that [setupNepaliTyping] attaches, run as the
    [k]-th listener of the text area [t], with every step recorded.  The
    synthetic event it dispatches re-enters the listeners of [t]; [fuel]
    bounds the nesting. *)
Fixpoint onInput_steps (fuel : nat) (k : nat) (t : Textarea)
  : outcome (Textarea * list action) :=
  match fuel with
  | O => OutOfFuel
  | S fuel' =>
      match listeners t !! k with
      | None => Unmodelled
      | Some true => Done (t, [Returned_at_guard k])
      | Some false =>
          let t := set_isConverting k true t in
          let originalValue := value t in
          let cursorPos := selectionStart t in
          nepaliText ← romanToNepali originalValue;
          '(t, steps) ←
            (if bool_decide (nepaliText ≠ originalValue) then
               let t := set_value nepaliText t in
               let t := set_selectionEnd cursorPos t in
               let t := set_selectionStart cursorPos t in
               '(t, steps) ← dispatchEvent_input (onInput_steps fuel') t;
               mret (t, Visible (ValueWritten nepaliText) :: steps)
             else mret (t, []));
          mret (set_isConverting k false t, Converted k originalValue :: steps)
      end
  end.

(** The listener as the page sees it: the text area it leaves and the
    observable effects of the run. *)
Definition onInput (fuel : nat) (k : nat) (t : Textarea)
  : outcome (Textarea * list effect) :=
  '(t', steps) ← onInput_steps fuel k t;
  mret (t', visible steps).

(** What a listener does when it is entered again while the text area [t]
    holds a converted value. *)
Definition reentrant_action (t : Textarea) (j : nat) : action :=
  if bool_decide (listeners t !! j = Some true) then Returned_at_guard j
  else Converted j (value t).

(** The marker attribute. *)
Definition data_nepali_enabled : jsstring := js "data-nepali-enabled".

(** The body of the [forEach] callback of [setupNepaliTyping]. *)
Definition setup_textarea (textarea : Textarea) : Textarea :=
  if hasAttribute data_nepali_enabled textarea then textarea
  else
    let textarea := setAttribute data_nepali_enabled (js "true") textarea in
    addEventListener_input false textarea.

(** The document, as far as the binder sees it, is the finite map from nodes
    to the text areas attached to [parent.document].
    [parent.document.querySelectorAll('textarea')] lists its nodes. *)
Definition querySelectorAll_textarea (doc : gmap nat Textarea) : list nat :=
  (map_to_list doc).*1.

(** [setupNepaliTyping]: the callback runs on each text area in turn. *)
Definition setupNepaliTyping (doc : gmap nat Textarea) : gmap nat Textarea :=
  let textAreas := querySelectorAll_textarea doc in
  foldl (λ d node, alter setup_textarea node d) doc textAreas.

(** The [MutationObserver] callback. *)
Definition observer_callback (doc : gmap nat Textarea) : gmap nat Textarea :=
  setupNepaliTyping doc.

(** A text area that the binder has not met: no marker, no listener of ours. *)
Definition unbound (t : Textarea) : Prop :=
  attributes t !! data_nepali_enabled = None ∧ listeners t = [].

(** A text area that the binder has met: it carries the marker and exactly one
    listener of ours, whose guard is clear between events. *)
Definition bound (t : Textarea) : Prop :=
  is_Some (attributes t !! data_nepali_enabled) ∧ listeners t = [false].

(** What the page and the user may do to a text area: anything but touch the
    marker attribute or the registered listeners. *)
Definition host_edit (t t' : Textarea) : Prop :=
  attributes t' !! data_nepali_enabled = attributes t !! data_nepali_enabled
  ∧ listeners t' = listeners t.

(** One step of the page's life.  Listeners that the host page itself puts on
    a text area are not part of the state; what they may do between two
    events is a [step_edit]. *)
Inductive step : gmap nat Textarea → gmap nat Textarea → Prop :=
  | step_scan doc :
      (* the initial call of [setupNepaliTyping], or the observer firing *)
      step doc (observer_callback doc)
  | step_add doc node t :
      doc !! node = None → unbound t → step doc (<[node := t]> doc)
  | step_remove doc node :
      step doc (delete node doc)
  | step_edit doc node t t' :
      doc !! node = Some t → host_edit t t' → step doc (<[node := t']> doc)
  | step_input doc node t fuel t' log :
      (* an ['input'] event delivered to the text area *)
      doc !! node = Some t →
      run_listeners (onInput fuel) (seq 0 (length (listeners t))) t
        = Done (t', log) →
      step doc (<[node := t']> doc).

(** The states the page reaches from a document no text area of which has
    been bound. *)
Definition reachable (doc : gmap nat Textarea) : Prop :=
  ∃ doc0, map_Forall (λ _ t, unbound t) doc0 ∧ rtc step doc0 doc.

(** What one pass of the listener amounts to when its guard is clear: nothing
    when the value is already converted; otherwise the converted value, the
    selection collapsed at the old selection start, and the two effects. *)
Definition onInput_result (t : Textarea) : Textarea * list effect :=
  let converted := transliterate (value t) in
  if bool_decide (converted = value t) then (t, [])
  else
    let caret := selection_start t `min` length converted in
    (mkTextarea converted caret caret (attributes t) (listeners t),
     [ValueWritten converted; InputDispatched]).

(** An ['input'] event delivered to a text area: its listeners run in
    registration order (the expression of [step_input]). *)
Definition deliver_input (fuel : nat) (t : Textarea)
  : outcome (Textarea * list effect) :=
  run_listeners (onInput fuel) (seq 0 (length (listeners t))) t.

(** A character that a conversion changes: a key of the table other than the
    question mark. *)
Definition convertible (c : N) : Prop :=
  is_Some (keyToNep !! [c]) ∧ c ≠ 0x3F%N.

#[global] Instance convertible_dec (c : N) : Decision (convertible c).
Proof. unfold convertible. apply _. Defined.

(** ** The Streamlit script *)

Module Py.

(** The Base64 alphabet of RFC 4648. *)
Definition b64_alphabet : string :=
  "ABCDEFGHIJKLMNOPQRSTUVWXYZabcdefghijklmnopqrstuvwxyz0123456789+/".

(** The character for a six-bit group. *)
Definition b64_char (sextet : N) : Ascii.ascii :=
  default (Ascii.ascii_of_N 0x41) (String.get (N.to_nat sextet) b64_alphabet).

(** [base64.b64encode(data).decode()] of the Python standard library: three
    bytes give four characters, and a last group of one or two bytes is
    padded with [=]. *)
Fixpoint b64encode (data : list N) : string :=
  match data with
  | [] => ""
  | [a] =>
      String (b64_char (a / 4))
        (String (b64_char ((a mod 4) * 16)) "==")
  | [a; b] =>
      String (b64_char (a / 4))
        (String (b64_char ((a mod 4) * 16 + b / 16))
           (String (b64_char ((b mod 16) * 4)) "="))
  | a :: b :: c :: rest =>
      String (b64_char (a / 4))
        (String (b64_char ((a mod 4) * 16 + b / 16))
           (String (b64_char ((b mod 16) * 4 + c / 64))
              (String (b64_char (c mod 64)) (b64encode rest))))
  end%N.

(** What the page shows: the elements a run has produced, in order. *)
#[warnings="-register-all"] Inductive element : Type :=
  | ElPageConfig (page_title page_icon layout : string)
  | ElTitle (body : string)
  | ElWrite (body : string)
  | ElTextArea (label key : string) (height : nat) (placeholder : string)
  | ElButton (label : string) (use_container_width : bool)
  | ElError (body : string)
  | ElImage (image caption use_column_width : string)
  | ElContainer (border : bool) (children : list element)
  | ElComponentHtml (height : nat).

(** What a run works on: the entries of [st.session_state] that assignments
    make, and the page built so far.  The entries that Streamlit itself keeps
    for the widgets that have a key are read off the page, see
    [widget_keys]. *)
Record world : Type := mkWorld {
  session_state : gmap string bool;
  page : list element
}.

(** What a run is given: the label of the button whose click started it, if
    a click did; what opening a file for reading yields; and the directory of
    the script, [Path(__file__).parent]. *)
Inductive file : Type :=
  | NoSuchFile
  | Unreadable
  | Contents (data : list N).

Record env : Type := mkEnv {
  clicked : option string;
  files : string → file;
  script_dir : string
}.

Inductive exn : Type :=
  | FileNotFoundError
  | OSError
  | AttributeError
  | RerunException.

Inductive signal (A : Type) : Type :=
  | Return (a : A)
  | Raise (e : exn).
Arguments Return {A} a.
Arguments Raise {A} e.

(** A piece of the script: it returns or raises, and changes the world. *)
Definition script (A : Type) : Type := world → signal A * world.

#[global] Instance script_ret : MRet script := λ A a w, (Return a, w).
#[global] Instance script_bind : MBind script := λ A B f m w,
  match m w with
  | (Return a, w') => f a w'
  | (Raise e, w') => (Raise e, w')
  end.

Definition raise {A} (e : exn) : script A := λ w, (Raise e, w).

(** Appending an element to the page. *)
Definition emit (e : element) : script unit :=
  λ w, (Return (), mkWorld (session_state w) (page w ++ [e])).

(** [key in st.session_state], asked of a key that no widget has. *)
Definition session_contains (key : string) : script bool :=
  λ w, (Return (bool_decide (is_Some (session_state w !! key))), w).

(** [st.session_state.key = b] *)
Definition session_set (key : string) (b : bool) : script unit :=
  λ w, (Return (), mkWorld (<[key := b]> (session_state w)) (page w)).

(** [st.session_state.key], which raises when the key is absent. *)
Definition session_get (key : string) : script bool :=
  λ w, match session_state w !! key with
       | Some b => (Return b, w)
       | None => (Raise AttributeError, w)
       end.

(** [st.text_area(label, key=..., height=..., placeholder=...)]: the widget
    is put on the page; being given a key, it is entered under that key in
    [st.session_state]. *)
Definition st_text_area (label key : string) (height : nat)
    (placeholder : string) : script unit :=
  emit (ElTextArea label key height placeholder).

(** The keys of the widgets on a page that were given one. *)
Fixpoint widget_keys_of (el : element) : list string :=
  match el with
  | ElTextArea _ key _ _ => [key]
  | ElContainer _ children => flat_map widget_keys_of children
  | _ => []
  end.

Definition widget_keys (p : list element) : list string :=
  flat_map widget_keys_of p.

(** The keys of [st.session_state] at the end of a run: those of the entries
    that assignments made and those of the widgets on the page. *)
Definition session_keys (w : world) : gset string :=
  dom (session_state w) ∪ list_to_set (widget_keys (page w)).

(** [st.button(label, use_container_width=...)]: true in the run that the
    click of this button started. *)
Definition st_button (e : env) (label : string) (use_container_width : bool)
  : script bool :=
  emit (ElButton label use_container_width);;
  mret (bool_decide (clicked e = Some label)).

(** [with st.container(border=...):] the elements of the body go into the
    container, also when the body raises. *)
Definition with_container {A} (border : bool) (body : script A) : script A :=
  λ w,
    let '(r, w') := body (mkWorld (session_state w) []) in
    (r, mkWorld (session_state w') (page w ++ [ElContainer border (page w')])).

(** [st.rerun()] *)
Definition st_rerun : script unit := raise RerunException.

(** [open(path, "rb")] and [read()] *)
Definition read_binary (e : env) (path : string) : signal (list N) :=
  match files e path with
  | NoSuchFile => Raise FileNotFoundError
  | Unreadable => Raise OSError
  | Contents data => Return data
  end.

(** Whether a path, as pathlib prints it, ends in a slash; only a root does. *)
Fixpoint ends_with_slash (path : string) : bool :=
  match path with
  | EmptyString => false
  | String _ EmptyString => bool_decide (path = "/")
  | String _ rest => ends_with_slash rest
  end.

(** [str(Path(__file__).parent / name)] for a POSIX path and a plain file
    name, where [script_dir] is [str(Path(__file__).parent)]: pathlib prints
    the current directory as a dot and drops it in a join, and puts no second
    slash after a root. *)
Definition path_in_script_dir (e : env) (name : string) : string :=
  if bool_decide (script_dir e = ".") then name
  else if ends_with_slash (script_dir e) then script_dir e +:+ name
  else script_dir e +:+ "/" +:+ name.

Definition image_to_base64_string (e : env) (path : string)
  : script (option string) :=
  match read_binary e path with
  | Return data => mret (Some (b64encode data))
  | Raise FileNotFoundError =>
      emit (ElError
              ("Image file not found at '" +:+ path +:+ "'. "
               +:+ "Please ensure 'nepali_keyboard_layout.png' is in the same directory as this script."));;
      mret None
  | Raise other => raise other
  end.

(** [components.html(component_html, height=0)]: the element stands for the
    markup whose script is modelled above. *)
Definition inject_custom_keyboard : script unit :=
  emit (ElComponentHtml 0).

(** Truth of an optional string: [None] and the empty string are false. *)
Definition truthy (s : option string) : bool :=
  match s with
  | Some (String _ _) => true
  | _ => false
  end.

(** The text an f-string puts for an optional string. *)
Definition py_str (s : option string) : string :=
  match s with
  | Some text => text
  | None => "None"
  end.

Definition main (e : env) : script unit :=
  emit (ElPageConfig "Nepali Romanized Keyboard" "🇳🇵" "centered");;
  present ← session_contains "show_keyboard";
  (if negb present then session_set "show_keyboard" false
   else mret () : script unit);;
  emit (ElTitle "🇳🇵 Nepali Romanized Typing");;
  emit (ElWrite "Type using a standard English (QWERTY) keyboard to write in Nepali. The conversion happens instantly.");;
  st_text_area "Type here:" "nepali_input_area" 200
    "नमस्ते! यहाँ टाइप गर्न सुरु गर्नुहोस्... (Namaste! Start typing here...)";;
  show_clicked ← st_button e "Show Keyboard Layout" true;
  (if show_clicked : bool then
     show ← session_get "show_keyboard";
     session_set "show_keyboard" (negb show)
   else mret () : script unit);;
  show ← session_get "show_keyboard";
  (if show : bool then
     let image_path :=
       path_in_script_dir e "romanized-nepali-unicode-keyboard-layout.png" in
     keyboard_image_b64 ← image_to_base64_string e image_path;
     if truthy keyboard_image_b64 then
       with_container true
         (emit (ElImage
                  ("data:image/png;base64," +:+ py_str keyboard_image_b64)
                  "Nepali Romanized Keyboard Layout" "auto");;
          hide_clicked ← st_button e "Hide Keyboard Layout" true;
          if hide_clicked : bool then
            session_set "show_keyboard" false;;
            st_rerun
          else mret () : script unit)
     else mret () : script unit
   else mret () : script unit);;
  inject_custom_keyboard.

(** How Streamlit runs the script for one interaction: a run, and after each
    [st.rerun()] another run in which no button reports a click. *)
Fixpoint interact (fuel : nat) (e : env) (state : gmap string bool)
  : outcome (signal unit * world) :=
  match fuel with
  | O => OutOfFuel
  | S fuel' =>
      match main e (mkWorld state []) with
      | (Raise RerunException, w) =>
          interact fuel' (mkEnv None (files e) (script_dir e)) (session_state w)
      | finished => Done finished
      end
  end.

(** The container holding the layout image, and the other elements the
    properties speak of. *)
Definition is_layout (el : element) : bool :=
  match el with
  | ElContainer _ (ElImage _ _ _ :: _) => true
  | _ => false
  end.

Definition is_error (el : element) : bool :=
  match el with
  | ElError _ => true
  | _ => false
  end.

Definition is_keyboard (el : element) : bool :=
  match el with
  | ElComponentHtml _ => true
  | _ => false
  end.

Definition is_text_area (el : element) : bool :=
  match el with
  | ElTextArea _ _ _ _ => true
  | _ => false
  end.

(** ** The script, case by case *)

(** Whether the layout was to be shown before the run: an absent
    [show_keyboard] is initialised to false. *)
Definition show_before (state : gmap string bool) : bool :=
  default false (state !! "show_keyboard").

(** Whether the layout is to be shown once the first button is handled. *)
Definition show_toggled (e : env) (state : gmap string bool) : bool :=
  if bool_decide (clicked e = Some "Show Keyboard Layout")
  then negb (show_before state)
  else show_before state.

(** What opening the layout image yields. *)
Definition layout_file (e : env) : file :=
  files e (path_in_script_dir e "romanized-nepali-unicode-keyboard-layout.png").

(** The elements every run starts with. *)
Definition page_head : list element :=
  [ ElPageConfig "Nepali Romanized Keyboard" "🇳🇵" "centered";
    ElTitle "🇳🇵 Nepali Romanized Typing";
    ElWrite "Type using a standard English (QWERTY) keyboard to write in Nepali. The conversion happens instantly.";
    ElTextArea "Type here:" "nepali_input_area" 200
      "नमस्ते! यहाँ टाइप गर्न सुरु गर्नुहोस्... (Namaste! Start typing here...)";
    ElButton "Show Keyboard Layout" true ].

(** The container with the layout image and the button that hides it. *)
Definition layout_container (data : list N) : element :=
  ElContainer true
    [ ElImage ("data:image/png;base64," +:+ b64encode data)
        "Nepali Romanized Keyboard Layout" "auto";
      ElButton "Hide Keyboard Layout" true ].

(** The error shown when the layout image does not exist. *)
Definition layout_missing (e : env) : element :=
  ElError
    ("Image file not found at '"
     +:+ path_in_script_dir e "romanized-nepali-unicode-keyboard-layout.png"
     +:+ "'. "
     +:+ "Please ensure 'nepali_keyboard_layout.png' is in the same directory as this script.").

(** A run of [main] from an empty page, spelled out by cases. *)
Definition main_result (e : env) (state : gmap string bool)
  : signal unit * world :=
  let state' := <["show_keyboard" := show_toggled e state]> state in
  if show_toggled e state then
    match layout_file e with
    | NoSuchFile =>
        (Return (),
         mkWorld state' (page_head ++ [layout_missing e; ElComponentHtml 0]))
    | Unreadable => (Raise OSError, mkWorld state' page_head)
    | Contents [] =>
        (Return (), mkWorld state' (page_head ++ [ElComponentHtml 0]))
    | Contents data =>
        if bool_decide (clicked e = Some "Hide Keyboard Layout") then
          (Raise RerunException,
           mkWorld (<["show_keyboard" := false]> state)
                   (page_head ++ [layout_container data]))
        else
          (Return (),
           mkWorld state'
                   (page_head ++ [layout_container data; ElComponentHtml 0]))
    end
  else (Return (), mkWorld state' (page_head ++ [ElComponentHtml 0])).

End Py.

Import Py.

(** * Properties *)

(** ** The outcome monad *)

Lemma outcome_bind_Done {A B} (f : A → outcome B) (a : A) :
  Done a ≫= f = f a.
Proof. reflexivity. Qed.

Lemma outcome_bind_inv {A B} (f : A → outcome B) (m : outcome A) (b : B) :
  m ≫= f = Done b → ∃ a, m = Done a ∧ f a = Done b.
Proof. destruct m as [a| |]; [eauto | done | done]. Qed.

(** ** The table *)

(** The table and the prototype are only ever evaluated in full, by
    [vm_compute]; the other reduction tactics leave them folded. *)
#[global] Opaque keyToNep Object_prototype.

Lemma keyToNep_shape : map_Forall (λ k v, entry_shape k v = true) keyToNep.
Proof. eapply bool_decide_unpack. vm_compute. reflexivity. Qed.

Lemma keyToNep_lookup_inv (k v : jsstring) :
  keyToNep !! k = Some v →
  ∃ c d, k = [c] ∧ v = [d] ∧ (c < 0x80)%N
         ∧ ((0x0900 ≤ d ≤ 0x200D)%N ∨ (c = 0x3F%N ∧ d = 0x3F%N)).
Proof.
  intros Hk. pose proof (keyToNep_shape k v Hk) as Hs. simpl in Hs.
  destruct k as [|c [|]]; [done| |done].
  destruct v as [|d [|]]; [done| |done].
  exists c, d. unfold entry_shape in Hs.
  apply andb_prop in Hs as [Hc Hd]. apply N.ltb_lt in Hc.
  repeat split; [done|].
  apply orb_prop in Hd as [Hd|Hd]; apply andb_prop in Hd as [H1 H2].
  - left. apply N.leb_le in H1. apply N.leb_le in H2. lia.
  - right. apply N.eqb_eq in H1. apply N.eqb_eq in H2. done.
Qed.

Lemma Object_prototype_long :
  set_Forall (λ name : jsstring, 2 ≤ length name) Object_prototype.
Proof. eapply bool_decide_unpack. vm_compute. reflexivity. Qed.

Lemma unit_not_inherited (c : N) : [c] ∉ Object_prototype.
Proof. intros Hin. apply Object_prototype_long in Hin. simpl in Hin. lia. Qed.

Lemma transliterate_char_unit (c : N) :
  transliterate_char c = [transliterate_unit c].
Proof.
  unfold transliterate_char, transliterate_unit.
  destruct (keyToNep !! [c]) as [v|] eqn:Hk; [|done].
  apply keyToNep_lookup_inv in Hk as (c' & d & _ & -> & _). done.
Qed.

(** A value of the table is not a key again, the question mark apart. *)
Lemma transliterate_unit_fixed (c : N) :
  transliterate_unit (transliterate_unit c) = transliterate_unit c.
Proof.
  unfold transliterate_unit at 2 3.
  destruct (keyToNep !! [c]) as [v|] eqn:Hk.
  - destruct (keyToNep_lookup_inv _ _ Hk) as (c' & d & [= <-] & -> & Hc & Hd).
    unfold transliterate_unit.
    destruct Hd as [Hd|[-> ->]].
    + destruct (keyToNep !! [d]) as [w|] eqn:Hd'; [|done].
      apply keyToNep_lookup_inv in Hd' as (d' & _ & [= <-] & _ & Hlt & _). lia.
    + by rewrite Hk.
  - unfold transliterate_unit. by rewrite Hk.
Qed.

Lemma transliterate_snoc (s : jsstring) (c : N) :
  transliterate (s ++ [c]) = transliterate s ++ transliterate_char c.
Proof. unfold transliterate. by rewrite foldl_snoc. Qed.

Lemma foldl_transliterate (acc s : jsstring) :
  foldl (λ output c, output ++ transliterate_char c) acc s
  = acc ++ (transliterate_unit <$> s).
Proof.
  revert acc. induction s as [|c s IH]; intros acc; simpl.
  - by rewrite app_nil_r.
  - rewrite IH, transliterate_char_unit. by rewrite <- app_assoc.
Qed.

Lemma transliterate_fmap (s : jsstring) :
  transliterate s = transliterate_unit <$> s.
Proof. unfold transliterate. by rewrite foldl_transliterate. Qed.

(** ** The loop of [romanToNepali] *)

(** One iteration appends what the table does to the character. *)
Lemma romanToNepali_iteration (c : N) :
  (get keyToNep (str [c]) ≫= λ mapped, ToString (or mapped (str [c])))
  = Done (transliterate_char c).
Proof.
  unfold get, transliterate_char. simpl.
  destruct (keyToNep !! [c]) as [v|] eqn:Hk; simpl.
  - apply keyToNep_lookup_inv in Hk as (c' & d & _ & -> & _). done.
  - rewrite bool_decide_eq_false_2 by apply unit_not_inherited. done.
Qed.

Lemma romanToNepali_loop_spec (fuel : nat) (s : jsstring) (i : nat)
    (acc : jsstring) :
  length s - i ≤ fuel →
  romanToNepali_loop fuel s i acc
  = Done (foldl (λ output c, output ++ transliterate_char c) acc (drop i s)).
Proof.
  revert i acc. induction fuel as [|fuel IH]; intros i acc Hfuel.
  - simpl. rewrite bool_decide_eq_false_2 by lia.
    rewrite drop_ge by lia. done.
  - simpl. case_bool_decide as Hi.
    + destruct (lookup_lt_is_Some_2 s i Hi) as [c Hc].
      unfold index. rewrite Hc.
      pose proof (romanToNepali_iteration c) as Hit.
      destruct (get keyToNep (str [c])) as [mapped| |]; simpl in Hit |- *;
        [|done|done].
      rewrite Hit. simpl.
      rewrite IH by lia. by rewrite (drop_S _ _ _ Hc).
    + rewrite drop_ge by lia. done.
Qed.

Lemma romanToNepali_transliterate (s : jsstring) :
  romanToNepali s = Done (transliterate s).
Proof.
  unfold romanToNepali. destruct s as [|c s]; [done|].
  change (negb (ToBoolean (str (c :: s)))) with false. cbv iota.
  rewrite romanToNepali_loop_spec by lia. done.
Qed.

(** ** Counting characters *)

Lemma transliterate_unit_surrogate (c : N) :
  is_high_surrogate (transliterate_unit c) = is_high_surrogate c
  ∧ is_low_surrogate (transliterate_unit c) = is_low_surrogate c.
Proof.
  unfold transliterate_unit.
  destruct (keyToNep !! [c]) as [v|] eqn:Hk; [|done].
  destruct (keyToNep_lookup_inv _ _ Hk) as (c' & d & [= <-] & -> & Hc & Hd).
  unfold is_high_surrogate, is_low_surrogate.
  split; symmetry.
  - rewrite (proj2 (N.leb_gt 0xD800 c)) by lia.
    rewrite (proj2 (N.leb_gt 0xD800 d)) by lia. done.
  - rewrite (proj2 (N.leb_gt 0xDC00 c)) by lia.
    rewrite (proj2 (N.leb_gt 0xDC00 d)) by lia. done.
Qed.

Lemma code_points_fmap (f : N → N) :
  (∀ c, is_high_surrogate (f c) = is_high_surrogate c) →
  (∀ c, is_low_surrogate (f c) = is_low_surrogate c) →
  ∀ s, code_points (f <$> s) = code_points s.
Proof.
  intros Hhigh Hlow s.
  remember (length s) as n eqn:Hn. revert s Hn.
  induction (lt_wf n) as [n _ IH]; intros s ->.
  destruct s as [|c [|d rest]]; [done|done|].
  change (code_points (f <$> c :: d :: rest)) with
    (if is_high_surrogate (f c) && is_low_surrogate (f d)
     then S (code_points (f <$> rest))
     else S (code_points (f <$> d :: rest))).
  change (code_points (c :: d :: rest)) with
    (if is_high_surrogate c && is_low_surrogate d
     then S (code_points rest)
     else S (code_points (d :: rest))).
  rewrite Hhigh, Hlow.
  rewrite (IH (length rest)) by (simpl; done || lia).
  rewrite (IH (length (d :: rest))) by (simpl; done || lia).
  done.
Qed.

(** ** Claims about [romanToNepali] *)

(** C1.  For every string, [romanToNepali] returns the character-by-character
    fold of the input in order: a character that is a key of the table
    contributes its mapped value, any other character contributes itself. *)
Theorem romanToNepali_is_fold (s : jsstring) :
  romanToNepali s
  = Done (foldl (λ output c,
                   output ++ match keyToNep !! [c] with
                             | Some mapped => mapped
                             | None => [c]
                             end) [] s)
  ∧ romanToNepali s = Done (transliterate s).
Proof.
  split; [|apply romanToNepali_transliterate].
  rewrite romanToNepali_transliterate. done.
Qed.

(** C2.  [romanToNepali] preserves the character count, whether characters
    are counted as UTF-16 code units (what [length] and the selection offsets
    count) or as code points: every entry of the table maps one code unit to
    one code unit, and everything else passes through. *)
Theorem romanToNepali_preserves_length (s : jsstring) :
  ∃ r, romanToNepali s = Done r
       ∧ length r = length s
       ∧ code_points r = code_points s
       ∧ map_Forall (λ k v, length k = 1 ∧ length v = 1) keyToNep.
Proof.
  exists (transliterate s). split; [apply romanToNepali_transliterate|].
  rewrite transliterate_fmap. split; [apply length_fmap|]. split.
  - apply code_points_fmap; intros c; apply transliterate_unit_surrogate.
  - intros k v Hk.
    apply keyToNep_lookup_inv in Hk as (c & d & -> & -> & _). done.
Qed.

(** C3, as the code has it.  ["namaste"] has seven characters and so has its
    image: U+0928 U+093E U+092E U+093E U+0938 U+0924 U+0947.  No U+094D
    appears, since the input has no [/]. *)
Theorem romanToNepali_namaste :
  romanToNepali (js "namaste")
  = Done [0x0928; 0x093E; 0x092E; 0x093E; 0x0938; 0x0924; 0x0947]%N.
Proof. vm_compute. reflexivity. Qed.

(** C3, as stated, fails: the image of ["namaste"] is not the eight-character
    string U+0928 U+093E U+092E U+093E U+0938 U+094D U+0924 U+0947. *)
Lemma romanToNepali_namaste_not_eight :
  romanToNepali (js "namaste")
  ≠ Done [0x0928; 0x093E; 0x092E; 0x093E; 0x0938; 0x094D; 0x0924; 0x0947]%N.
Proof. vm_compute. discriminate. Qed.

Lemma romanToNepali_fixed_of_units (s : jsstring) :
  Forall (λ c, transliterate_unit c = c) s → romanToNepali s = Done s.
Proof.
  intros Hs. rewrite romanToNepali_transliterate, transliterate_fmap.
  f_equal. induction Hs as [|c s Hc _ IH]; [done|].
  rewrite fmap_cons, Hc, IH. done.
Qed.

Lemma transliterate_unit_not_key (c : N) :
  keyToNep !! [c] = None → transliterate_unit c = c.
Proof. intros Hk. unfold transliterate_unit. by rewrite Hk. Qed.

(** The only character of the output alphabet that is a key is the question
    mark; in particular no Devanagari code point and neither zero-width
    character is a key. *)
Lemma output_alphabet_key (c : N) :
  output_alphabet c = true → keyToNep !! [c] = None ∨ c = 0x3F%N.
Proof.
  intros Hout.
  destruct (keyToNep !! [c]) as [v|] eqn:Hk; [|by left].
  destruct (keyToNep_lookup_inv _ _ Hk) as (c' & d & [= <-] & -> & Hc & _).
  unfold output_alphabet in Hout.
  repeat (apply orb_prop in Hout as [Hout|Hout]);
    apply bool_decide_eq_true_1 in Hout; try lia.
  apply list_elem_of_fmap in Hout as ([k w] & Hw & Hin). simpl in Hw. subst w.
  apply elem_of_map_to_list in Hin.
  destruct (keyToNep_lookup_inv _ _ Hin) as (c' & d' & -> & [= <-] & _ & Hd).
  right. lia.
Qed.

(** C6.  A string made only of output-alphabet characters that are not keys
    of the table is returned unchanged. *)
Theorem romanToNepali_output_alphabet (s : jsstring) :
  Forall (λ c, output_alphabet c = true ∧ keyToNep !! [c] = None) s →
  romanToNepali s = Done s.
Proof.
  intros Hs. apply romanToNepali_fixed_of_units.
  eapply Forall_impl; [exact Hs|].
  intros c [_ Hk]. by apply transliterate_unit_not_key.
Qed.

Lemma romanToNepali_output_alphabet_witness :
  Forall (λ c, output_alphabet c = true ∧ keyToNep !! [c] = None)
         [0x0928; 0x092E; 0x0938; 0x094D; 0x0924; 0x0947; 0x200D; 0x0964]%N
  ∧ romanToNepali [0x0928; 0x092E; 0x0938; 0x094D; 0x0924; 0x0947; 0x200D; 0x0964]%N
    = Done [0x0928; 0x092E; 0x0938; 0x094D; 0x0924; 0x0947; 0x200D; 0x0964]%N.
Proof.
  assert (Forall (λ c, output_alphabet c = true ∧ keyToNep !! [c] = None)
            [0x0928; 0x092E; 0x0938; 0x094D; 0x0924; 0x0947; 0x200D; 0x0964]%N)
    as Hs by (repeat constructor; vm_compute; reflexivity).
  split; [exact Hs|].
  exact (romanToNepali_output_alphabet _ Hs).
Defined.

(** C7.  [romanToNepali] finishes on every input, and a single character that
    is not a key of the table comes back as itself. *)
Theorem romanToNepali_total_passthrough :
  (∀ s, ∃ r, romanToNepali s = Done r)
  ∧ (∀ c, keyToNep !! [c] = None → romanToNepali [c] = Done [c]).
Proof.
  split.
  - intros s. exists (transliterate s). apply romanToNepali_transliterate.
  - intros c Hk. apply romanToNepali_fixed_of_units.
    constructor; [by apply transliterate_unit_not_key | constructor].
Qed.

Lemma romanToNepali_total_passthrough_witness :
  keyToNep !! [0x20%N] = None ∧ romanToNepali [0x20%N] = Done [0x20%N].
Proof.
  assert (keyToNep !! [0x20%N] = None) as Hk by (vm_compute; reflexivity).
  split; [exact Hk|].
  exact (proj2 romanToNepali_total_passthrough 0x20%N Hk).
Defined.

(** ** Coverage of the table *)

Lemma N_range_Forall (P : N → Prop) (a : N) (n : nat) :
  Forall P (N.of_nat <$> seq (N.to_nat a) n) →
  ∀ c, (a ≤ c < a + N.of_nat n)%N → P c.
Proof.
  intros Hall c Hc. rewrite Forall_forall in Hall. apply Hall.
  apply list_elem_of_fmap. exists (N.to_nat c). split; [lia|].
  apply elem_of_seq. lia.
Qed.

(** C9.  The table has an entry for each of the 26 lowercase and the 26
    uppercase Latin letters, with different values for the two cases of a
    letter, for each digit, and for each of the 16 punctuation keys; the
    question mark has an entry of its own, mapping it to itself. *)
Theorem keyToNep_covers_keyboard :
  (∀ c, (0x61 ≤ c ≤ 0x7A)%N →
        is_Some (keyToNep !! [c]) ∧ is_Some (keyToNep !! [(c - 0x20)%N])
        ∧ keyToNep !! [c] ≠ keyToNep !! [(c - 0x20)%N])
  ∧ (∀ c, (0x30 ≤ c ≤ 0x39)%N → is_Some (keyToNep !! [c]))
  ∧ (length punctuation_keys = 16 ∧ NoDup punctuation_keys
     ∧ Forall (λ c, is_Some (keyToNep !! [c])) punctuation_keys)
  ∧ keyToNep !! js "?" = Some (js "?")
  ∧ size keyToNep = 26 + 26 + 10 + 16.
Proof.
  split; [|split; [|split; [|split]]].
  - intros c Hc.
    apply (N_range_Forall
             (λ c, is_Some (keyToNep !! [c])
                   ∧ is_Some (keyToNep !! [(c - 0x20)%N])
                   ∧ keyToNep !! [c] ≠ keyToNep !! [(c - 0x20)%N])
             0x61%N 26); [|lia].
    eapply bool_decide_unpack. vm_compute. reflexivity.
  - intros c Hc.
    apply (N_range_Forall (λ c, is_Some (keyToNep !! [c])) 0x30%N 10); [|lia].
    eapply bool_decide_unpack. vm_compute. reflexivity.
  - split; [vm_compute; reflexivity|].
    split; eapply bool_decide_unpack; vm_compute; reflexivity.
  - vm_compute. reflexivity.
  - vm_compute. reflexivity.
Qed.

Lemma keyToNep_covers_keyboard_witness :
  (0x61 ≤ 0x6B ≤ 0x7A)%N
  ∧ keyToNep !! [0x6B%N] ≠ keyToNep !! [(0x6B - 0x20)%N].
Proof.
  assert (0x61 ≤ 0x6B ≤ 0x7A)%N as Hc by lia.
  split; [exact Hc|].
  exact (proj2 (proj2 (proj1 keyToNep_covers_keyboard 0x6B%N Hc))).
Defined.

(** ** Idempotence *)

Lemma transliterate_idempotent (s : jsstring) :
  transliterate (transliterate s) = transliterate s.
Proof.
  rewrite !transliterate_fmap, <- list_fmap_compose.
  apply list_fmap_ext. intros _ c _. apply transliterate_unit_fixed.
Qed.

Lemma romanToNepali_fixed_point (s : jsstring) :
  romanToNepali (transliterate s) = Done (transliterate s).
Proof. by rewrite romanToNepali_transliterate, transliterate_idempotent. Qed.

(** ** Newlines *)

Lemma normalize_newlines_id (s : jsstring) :
  Forall (λ c, c ≠ 0x0D%N) s → normalize_newlines s = s.
Proof.
  induction 1 as [|c s Hc _ IH]; [done|].
  simpl. rewrite bool_decide_eq_false_2 by done. by rewrite IH.
Qed.

Lemma normalize_newlines_no_CR (s : jsstring) :
  Forall (λ c, c ≠ 0x0D%N) (normalize_newlines s).
Proof.
  remember (length s) as n eqn:Hn. revert s Hn.
  induction (lt_wf n) as [n _ IH]; intros s ->.
  destruct s as [|c rest]; [constructor|].
  simpl. case_bool_decide as Hc.
  - destruct rest as [|d rest']; [by repeat constructor|].
    case_bool_decide; (constructor; [done|]);
      eapply IH; try reflexivity; simpl; lia.
  - constructor; [done|]. eapply IH; try reflexivity; simpl; lia.
Qed.

Lemma transliterate_unit_CR (c : N) :
  c ≠ 0x0D%N → transliterate_unit c ≠ 0x0D%N.
Proof.
  intros Hc. unfold transliterate_unit.
  destruct (keyToNep !! [c]) as [v|] eqn:Hk; [|done].
  destruct (keyToNep_lookup_inv _ _ Hk) as (c' & d & [= <-] & -> & _ & Hd).
  lia.
Qed.

Lemma transliterate_no_CR (s : jsstring) :
  Forall (λ c, c ≠ 0x0D%N) s → Forall (λ c, c ≠ 0x0D%N) (transliterate s).
Proof.
  intros Hs. rewrite transliterate_fmap. apply Forall_fmap.
  eapply Forall_impl; [exact Hs|]. intros c Hc. by apply transliterate_unit_CR.
Qed.

(** The converted value of a text area is stored and read back as it is. *)
Lemma normalize_converted (t : Textarea) :
  normalize_newlines (transliterate (value t)) = transliterate (value t).
Proof.
  apply normalize_newlines_id, transliterate_no_CR, normalize_newlines_no_CR.
Qed.

(** ** The listener *)

Lemma onInput_steps_unfold (fuel k : nat) (t : Textarea) :
  onInput_steps (S fuel) k t
  = match listeners t !! k with
    | None => Unmodelled
    | Some true => Done (t, [Returned_at_guard k])
    | Some false =>
        let t1 := set_isConverting k true t in
        nepaliText ← romanToNepali (value t1);
        '(t', steps) ←
          (if bool_decide (nepaliText ≠ value t1) then
             '(t', steps) ← dispatchEvent_input (onInput_steps fuel)
                  (set_selectionStart (selectionStart t1)
                     (set_selectionEnd (selectionStart t1)
                        (set_value nepaliText t1)));
             mret (t', Visible (ValueWritten nepaliText) :: steps)
           else mret (t1, []));
        mret (set_isConverting k false t', Converted k (value t1) :: steps)
    end.
Proof. reflexivity. Qed.

Lemma onInput_of_steps (fuel k : nat) (t t' : Textarea) (steps : list action) :
  onInput_steps fuel k t = Done (t', steps) →
  onInput fuel k t = Done (t', visible steps).
Proof. intros Hrun. unfold onInput. by rewrite Hrun. Qed.

Lemma onInput_0 (k : nat) (t : Textarea) : onInput 0 k t = OutOfFuel.
Proof. reflexivity. Qed.

Lemma onInput_no_listener (fuel k : nat) (t : Textarea) :
  listeners t !! k = None → onInput (S fuel) k t = Unmodelled.
Proof.
  intros Hk. unfold onInput. by rewrite onInput_steps_unfold, Hk.
Qed.

Lemma set_isConverting_restore (t : Textarea) (k : nat) (b b' : bool) :
  listeners t !! k = Some b →
  set_isConverting k b (set_isConverting k b' t) = t.
Proof.
  intros Hk. destruct t as [raw s e attrs ls]. unfold set_isConverting.
  simpl in *. f_equal. rewrite list_insert_insert_eq. by apply list_insert_id.
Qed.

(** With the guard set the listener returns at the guard. *)
Lemma onInput_steps_guard_set (fuel k : nat) (t : Textarea) :
  listeners t !! k = Some true →
  onInput_steps (S fuel) k t = Done (t, [Returned_at_guard k]).
Proof. intros Hk. rewrite onInput_steps_unfold. by rewrite Hk. Qed.

Lemma onInput_guard_set (fuel k : nat) (t : Textarea) :
  listeners t !! k = Some true → onInput (S fuel) k t = Done (t, []).
Proof.
  intros Hk.
  by rewrite (onInput_of_steps _ _ _ _ _ (onInput_steps_guard_set fuel k t Hk)).
Qed.

(** A listener whose guard is clear converts, and leaves a converted value
    alone. *)
Lemma onInput_steps_unchanged (fuel k : nat) (t : Textarea) :
  listeners t !! k = Some false →
  transliterate (value t) = value t →
  onInput_steps (S fuel) k t = Done (t, [Converted k (value t)]).
Proof.
  intros Hk Hfix. rewrite onInput_steps_unfold, Hk. cbv zeta.
  change (value (set_isConverting k true t)) with (value t).
  rewrite romanToNepali_transliterate, outcome_bind_Done.
  rewrite bool_decide_eq_false_2 by (intros Hne; by apply Hne).
  cbn [mbind outcome_bind mret outcome_ret].
  by rewrite (set_isConverting_restore _ _ _ _ Hk).
Qed.

Lemma onInput_unchanged (fuel k : nat) (t : Textarea) :
  listeners t !! k = Some false →
  transliterate (value t) = value t →
  onInput (S fuel) k t = Done (t, []).
Proof.
  intros Hk Hfix.
  by rewrite (onInput_of_steps _ _ _ _ _
                (onInput_steps_unchanged fuel k t Hk Hfix)).
Qed.

(** Every listener entered while the value is converted either returns at
    its guard or converts and finds nothing to write. *)
Lemma run_listeners_reentrant (fuel : nat) (ks : list nat) (t : Textarea) :
  transliterate (value t) = value t →
  Forall (λ j, is_Some (listeners t !! j)) ks →
  run_listeners (onInput_steps (S fuel)) ks t
  = Done (t, reentrant_action t <$> ks).
Proof.
  intros Hfix Hks. induction Hks as [|j ks [b Hj] _ IH]; [done|].
  cbn [run_listeners].
  assert (onInput_steps (S fuel) j t = Done (t, [reentrant_action t j])) as ->.
  { unfold reentrant_action. rewrite Hj. destruct b.
    - rewrite bool_decide_eq_true_2 by done. by apply onInput_steps_guard_set.
    - rewrite bool_decide_eq_false_2 by done.
      by apply onInput_steps_unchanged. }
  rewrite outcome_bind_Done, IH. done.
Qed.

Lemma dispatchEvent_input_reentrant (fuel : nat) (t : Textarea) :
  transliterate (value t) = value t →
  dispatchEvent_input (onInput_steps (S fuel)) t
  = Done (t, Visible InputDispatched
             :: (reentrant_action t <$> seq 0 (length (listeners t)))).
Proof.
  intros Hfix. unfold dispatchEvent_input.
  rewrite run_listeners_reentrant; [done|done|].
  apply Forall_forall. intros j Hj. apply elem_of_seq in Hj.
  apply lookup_lt_is_Some. lia.
Qed.

Lemma visible_reentrant (t : Textarea) (ks : list nat) :
  visible (reentrant_action t <$> ks) = [].
Proof.
  induction ks as [|j ks IH]; [done|].
  rewrite fmap_cons. unfold visible, reentrant_action in *.
  cbn [omap list_omap]. by case_bool_decide.
Qed.

Lemma value_mkTextarea raw s e attrs ls :
  value (mkTextarea raw s e attrs ls) = normalize_newlines raw.
Proof. reflexivity. Qed.

(** The state in which the synthetic event is dispatched. *)
Lemma written_state (t : Textarea) (k : nat) :
  transliterate (value t) ≠ value t →
  set_selectionStart (selection_start t)
    (set_selectionEnd (selection_start t)
       (set_value (transliterate (value t)) (set_isConverting k true t)))
  = mkTextarea (transliterate (value t))
      (selection_start t `min` length (transliterate (value t)))
      (selection_start t `min` length (transliterate (value t)))
      (attributes t) (<[k := true]> (listeners t)).
Proof.
  intros Hne. unfold set_value, value at 1 2 3 4. cbn [raw_value set_isConverting].
  fold (value t). rewrite normalize_converted.
  rewrite bool_decide_eq_false_2 by done.
  unfold set_selectionStart, set_selectionEnd, set_selection_range, value.
  cbn [raw_value selection_start selection_end attributes listeners].
  fold (value t). rewrite normalize_converted.
  set (p := selection_start t). set (len := length (transliterate (value t))).
  case_bool_decide; f_equal; lia.
Qed.

(** A pass that writes, step by step: the conversion, the write, the
    synthetic event, and what each listener does when the event reaches it
    while the guard of the [k]-th is set. *)
Lemma onInput_steps_write (fuel k : nat) (t : Textarea) :
  listeners t !! k = Some false →
  transliterate (value t) ≠ value t →
  onInput_steps (S (S fuel)) k t
  = Done (mkTextarea (transliterate (value t))
            (selection_start t `min` length (transliterate (value t)))
            (selection_start t `min` length (transliterate (value t)))
            (attributes t) (listeners t),
          Converted k (value t)
          :: Visible (ValueWritten (transliterate (value t)))
          :: Visible InputDispatched
          :: ((λ j, if bool_decide (<[k := true]> (listeners t) !! j = Some true)
                    then Returned_at_guard j
                    else Converted j (transliterate (value t)))
              <$> seq 0 (length (listeners t)))).
Proof.
  intros Hk Hne. rewrite onInput_steps_unfold, Hk. cbv zeta.
  change (value (set_isConverting k true t)) with (value t).
  change (selectionStart (set_isConverting k true t)) with (selection_start t).
  rewrite romanToNepali_transliterate, outcome_bind_Done.
  rewrite bool_decide_eq_true_2 by done.
  rewrite written_state by done.
  rewrite dispatchEvent_input_reentrant.
  2:{ rewrite value_mkTextarea, normalize_converted.
      apply transliterate_idempotent. }
  cbn [mbind outcome_bind mret outcome_ret].
  unfold set_isConverting, reentrant_action.
  cbn [raw_value selection_start selection_end attributes listeners].
  rewrite value_mkTextarea, normalize_converted, length_insert.
  rewrite list_insert_insert_eq, (list_insert_id _ _ _ Hk). done.
Qed.

(** One pass of a listener whose guard is clear: two units of fuel are
    enough, and the pass amounts to [onInput_result]. *)
Lemma onInput_spec (fuel k : nat) (t : Textarea) :
  listeners t !! k = Some false →
  onInput (S (S fuel)) k t = Done (onInput_result t).
Proof.
  intros Hk. unfold onInput_result. case_bool_decide as Hfix.
  { by apply onInput_unchanged. }
  rewrite (onInput_of_steps _ _ _ _ _ (onInput_steps_write fuel k t Hk Hfix)).
  do 2 f_equal. unfold visible. cbn [omap list_omap]. do 2 f_equal.
  pose proof (visible_reentrant
                (mkTextarea (transliterate (value t)) 0 0 (attributes t)
                            (<[k := true]> (listeners t)))
                (seq 0 (length (listeners t)))) as Hvis.
  unfold visible, reentrant_action in Hvis. cbn [listeners] in Hvis.
  rewrite value_mkTextarea, normalize_converted in Hvis. exact Hvis.
Qed.

(** The caret survives a pass that writes: the conversion keeps the length, so
    the offset read before the write is still inside the text after it. *)
Lemma onInput_restores_caret (fuel k : nat) (t : Textarea) :
  listeners t !! k = Some false →
  selection_start t ≤ length (value t) →
  transliterate (value t) ≠ value t →
  ∃ t', onInput (S (S fuel)) k t
        = Done (t', [ValueWritten (transliterate (value t)); InputDispatched])
        ∧ value t' = transliterate (value t)
        ∧ selectionStart t' = selection_start t
        ∧ selectionEnd t' = selection_start t.
Proof.
  intros Hk Hcaret Hne. rewrite onInput_spec by done.
  unfold onInput_result. rewrite bool_decide_eq_false_2 by done.
  eexists. split; [reflexivity|].
  rewrite value_mkTextarea, normalize_converted.
  unfold selectionStart, selectionEnd. cbn [selection_start selection_end].
  rewrite transliterate_fmap, length_fmap. repeat split; lia.
Qed.

(** With a single unit of fuel a pass that writes cannot deliver its
    synthetic event: the nesting is exactly two deep. *)
Lemma onInput_write_needs_fuel (k : nat) (t : Textarea) :
  listeners t !! k = Some false →
  transliterate (value t) ≠ value t →
  onInput 1 k t = OutOfFuel.
Proof.
  intros Hk Hne. unfold onInput. rewrite onInput_steps_unfold, Hk. cbv zeta.
  change (value (set_isConverting k true t)) with (value t).
  change (selectionStart (set_isConverting k true t)) with (selection_start t).
  rewrite romanToNepali_transliterate, outcome_bind_Done.
  rewrite bool_decide_eq_true_2 by done.
  rewrite written_state by done.
  unfold dispatchEvent_input. cbn [listeners]. rewrite length_insert.
  destruct (listeners t) as [|b ls]; [done|]. reflexivity.
Qed.

(** Every way a pass can finish. *)
Lemma onInput_Done_inv (fuel k : nat) (t t' : Textarea) (log : list effect) :
  onInput fuel k t = Done (t', log) →
  (t', log) = (t, []) ∨ (t', log) = onInput_result t.
Proof.
  intros Hrun. destruct fuel as [|[|fuel]].
  - by rewrite onInput_0 in Hrun.
  - destruct (listeners t !! k) as [[|]|] eqn:Hk.
    + rewrite onInput_guard_set in Hrun by done. left. congruence.
    + destruct (decide (transliterate (value t) = value t)) as [Hfix|Hne].
      * rewrite onInput_unchanged in Hrun by done. left. congruence.
      * rewrite onInput_write_needs_fuel in Hrun by done. done.
    + rewrite onInput_no_listener in Hrun by done. done.
  - destruct (listeners t !! k) as [[|]|] eqn:Hk.
    + rewrite onInput_guard_set in Hrun by done. left. congruence.
    + rewrite onInput_spec in Hrun by done. right. congruence.
    + rewrite onInput_no_listener in Hrun by done. done.
Qed.

(** ** Claims about the listener *)

(** C4.  A listener whose guard is set returns at the guard: it converts
    nothing and writes nothing.  A listener whose guard is clear finishes
    within a nesting of two, with its guard clear again whether or not it
    wrote.  When it writes, its steps are: one conversion, one write, one
    synthetic event, and then what the event does to each listener of the
    text area while the guard is set.  There the listener itself returns at
    its guard, so the only value it ever converts is the one it read on
    entry, and nothing is written or dispatched a second time.  On a bound
    text area, which has this one listener, the whole run is the conversion,
    the write, the event and the return at the guard. *)
Theorem onInput_reentrancy_guard (t : Textarea) (k : nat) :
  (listeners t !! k = Some true →
   ∀ fuel, onInput_steps (S fuel) k t = Done (t, [Returned_at_guard k])
           ∧ onInput (S fuel) k t = Done (t, []))
  ∧ (listeners t !! k = Some false →
     ∀ fuel, ∃ t' steps,
       onInput_steps (S (S fuel)) k t = Done (t', steps)
       ∧ onInput (S (S fuel)) k t = Done (t', visible steps)
       ∧ listeners t' = listeners t
       ∧ listeners t' !! k = Some false
       ∧ (transliterate (value t) = value t →
          t' = t ∧ steps = [Converted k (value t)])
       ∧ (transliterate (value t) ≠ value t →
          steps
          = Converted k (value t)
            :: Visible (ValueWritten (transliterate (value t)))
            :: Visible InputDispatched
            :: ((λ j, if bool_decide
                           (<[k := true]> (listeners t) !! j = Some true)
                      then Returned_at_guard j
                      else Converted j (transliterate (value t)))
                <$> seq 0 (length (listeners t)))
          ∧ Returned_at_guard k ∈ steps
          ∧ (∀ v, Converted k v ∈ steps → v = value t)
          ∧ visible steps
            = [ValueWritten (transliterate (value t)); InputDispatched]
          ∧ (listeners t = [false] →
             steps = [ Converted 0 (value t);
                       Visible (ValueWritten (transliterate (value t)));
                       Visible InputDispatched;
                       Returned_at_guard 0 ]))).
Proof.
  split.
  { intros Hk fuel.
    split; [by apply onInput_steps_guard_set | by apply onInput_guard_set]. }
  intros Hk fuel.
  destruct (decide (transliterate (value t) = value t)) as [Hfix|Hne].
  - exists t, [Converted k (value t)].
    pose proof (onInput_steps_unchanged (S fuel) k t Hk Hfix) as Hrun.
    split; [exact Hrun|]. split; [by apply onInput_of_steps|].
    repeat split; done.
  - pose proof (onInput_steps_write fuel k t Hk Hne) as Hrun.
    eexists _, _. split; [exact Hrun|].
    split; [by apply onInput_of_steps|].
    cbn [listeners]. split; [done|]. split; [done|]. split; [done|].
    intros _.
    assert (<[k := true]> (listeners t) !! k = Some true) as Hset.
    { apply list_lookup_insert_eq. by eapply lookup_lt_Some. }
    split; [done|]. split; [|split; [|split]].
    + do 3 apply list_elem_of_further.
      apply list_elem_of_fmap. exists k. split.
      * by rewrite bool_decide_eq_true_2.
      * apply elem_of_seq. apply lookup_lt_Some in Hk. lia.
    + intros v Hv.
      apply elem_of_cons in Hv as [[= ->]|Hv]; [done|].
      apply elem_of_cons in Hv as [?|Hv]; [done|].
      apply elem_of_cons in Hv as [?|Hv]; [done|].
      apply list_elem_of_fmap in Hv as (j & Hj & _).
      case_bool_decide as Hflag; [done|].
      injection Hj as Hkj _. subst j. done.
    + pose proof (onInput_spec fuel k t Hk) as Hspec.
      rewrite (onInput_of_steps _ _ _ _ _ Hrun) in Hspec.
      unfold onInput_result in Hspec.
      rewrite bool_decide_eq_false_2 in Hspec by done. congruence.
    + intros Hls. rewrite Hls in Hk |- *.
      destruct k as [|k]; [reflexivity | done].
Qed.

Lemma onInput_reentrancy_guard_witness :
  (listeners (mkTextarea (js "ks") 2 2 ∅ [true]) !! 0 = Some true
   ∧ onInput_steps 1 0 (mkTextarea (js "ks") 2 2 ∅ [true])
     = Done (mkTextarea (js "ks") 2 2 ∅ [true], [Returned_at_guard 0]))
  ∧ (listeners (mkTextarea (js "ks") 2 2 ∅ [false]) !! 0 = Some false
     ∧ ∃ t' steps,
         onInput_steps 2 0 (mkTextarea (js "ks") 2 2 ∅ [false])
         = Done (t', steps)
         ∧ listeners t' = [false]).
Proof.
  split.
  - split; [reflexivity|].
    exact (proj1 (proj1 (onInput_reentrancy_guard
                           (mkTextarea (js "ks") 2 2 ∅ [true]) 0) eq_refl 0)).
  - split; [reflexivity|].
    destruct (proj2 (onInput_reentrancy_guard
                       (mkTextarea (js "ks") 2 2 ∅ [false]) 0) eq_refl 0)
      as (t' & steps & Hrun & _ & Hls & _).
    exists t', steps. split; [exact Hrun | exact Hls].
Defined.

(** C5.  A bound text area holding ["ks"] with the caret at offset 2: one pass
    writes the converted value, puts selection start and end back at 2 and
    dispatches one synthetic event; a second pass writes nothing and
    dispatches nothing.  In general a pass over a value that is its own
    conversion leaves the text area as it is. *)
Theorem binder_scenario_ks :
  (∃ converted t1,
     romanToNepali (js "ks") = Done converted
     ∧ onInput 2 0 (setup_textarea (mkTextarea (js "ks") 2 2 ∅ []))
       = Done (t1, [ValueWritten converted; InputDispatched])
     ∧ value t1 = converted
     ∧ selectionStart t1 = 2 ∧ selectionEnd t1 = 2
     ∧ onInput 2 0 t1 = Done (t1, []))
  ∧ (∀ t k fuel,
       listeners t !! k = Some false →
       romanToNepali (value t) = Done (value t) →
       onInput (S fuel) k t = Done (t, [])).
Proof.
  split.
  - exists [0x0915; 0x0938]%N,
      (mkTextarea [0x0915; 0x0938]%N 2 2
         {[ data_nepali_enabled := js "true" ]} [false]).
    repeat split; vm_compute; reflexivity.
  - intros t k fuel Hk Hfix. apply onInput_unchanged; [done|].
    rewrite romanToNepali_transliterate in Hfix. congruence.
Qed.

Lemma binder_scenario_ks_witness :
  onInput 1 0 (mkTextarea [0x0915; 0x0938]%N 2 2 ∅ [false])
  = Done (mkTextarea [0x0915; 0x0938]%N 2 2 ∅ [false], []).
Proof.
  apply (proj2 binder_scenario_ks
           (mkTextarea [0x0915; 0x0938]%N 2 2 ∅ [false]) 0 0).
  - reflexivity.
  - vm_compute. reflexivity.
Defined.

(** C10.  Converting a converted string changes nothing: no value of the
    table is a key, the question mark apart, which maps to itself.  So what a
    pass of the listener writes is always a fixed point of the conversion. *)
Theorem romanToNepali_idempotent :
  (∀ s, romanToNepali s ≫= romanToNepali = romanToNepali s)
  ∧ (∀ v, v ∈ (map_to_list keyToNep).*2 →
          keyToNep !! v = None ∨ (v = js "?" ∧ keyToNep !! v = Some v))
  ∧ (∀ fuel k t t' log v,
       onInput fuel k t = Done (t', log) →
       ValueWritten v ∈ log →
       romanToNepali v = Done v).
Proof.
  split; [|split].
  - intros s. rewrite romanToNepali_transliterate, outcome_bind_Done.
    apply romanToNepali_fixed_point.
  - intros v Hv.
    apply list_elem_of_fmap in Hv as ([k w] & -> & Hin). simpl.
    apply elem_of_map_to_list in Hin.
    destruct (keyToNep_lookup_inv _ _ Hin) as (c & d & -> & -> & _ & Hd).
    destruct Hd as [Hd|[-> ->]].
    + left. destruct (keyToNep !! [d]) as [w|] eqn:Hd'; [|done].
      apply keyToNep_lookup_inv in Hd' as (d' & _ & [= <-] & _ & Hlt & _). lia.
    + right. split; [reflexivity | exact Hin].
  - intros fuel k t t' log v Hrun Hv.
    apply onInput_Done_inv in Hrun as [[= -> ->]|Hres].
    + by apply elem_of_nil in Hv.
    + unfold onInput_result in Hres. case_bool_decide; injection Hres as -> ->.
      * by apply elem_of_nil in Hv.
      * apply elem_of_cons in Hv as [[= ->]|Hv]; [apply romanToNepali_fixed_point|].
        apply elem_of_cons in Hv as [?|Hv]; [done|]. by apply elem_of_nil in Hv.
Qed.

Lemma romanToNepali_idempotent_witness :
  romanToNepali [0x0915; 0x0938]%N = Done [0x0915; 0x0938]%N.
Proof.
  apply (proj2 (proj2 romanToNepali_idempotent) 2 0
           (mkTextarea (js "ks") 2 2 ∅ [false])
           (mkTextarea [0x0915; 0x0938]%N 2 2 ∅ [false])
           [ValueWritten [0x0915; 0x0938]%N; InputDispatched]).
  - vm_compute. reflexivity.
  - apply elem_of_cons. left. reflexivity.
Defined.

(** ** Discovery *)

Lemma foldl_alter_lookup {A} (f : A → A) (nodes : list nat)
    (m : gmap nat A) (j : nat) :
  NoDup nodes →
  foldl (λ d node, alter f node d) m nodes !! j
  = if decide (j ∈ nodes) then f <$> m !! j else m !! j.
Proof.
  intros Hnd. revert m.
  induction Hnd as [|i nodes Hi _ IH]; intros m; [done|].
  cbn [foldl]. rewrite IH.
  destruct (decide (j = i)) as [->|Hji].
  - rewrite decide_False by done. rewrite decide_True by apply list_elem_of_here.
    apply lookup_alter_eq.
  - rewrite lookup_alter_ne by done.
    destruct (decide (j ∈ nodes)) as [Hj|Hj].
    + rewrite decide_True by (by apply list_elem_of_further). done.
    + rewrite decide_False; [done|].
      intros [?|?]%elem_of_cons; done.
Qed.

(** The scan applies the callback to every text area of the document. *)
Lemma setupNepaliTyping_fmap (doc : gmap nat Textarea) :
  setupNepaliTyping doc = setup_textarea <$> doc.
Proof.
  apply map_eq. intros j. unfold setupNepaliTyping, querySelectorAll_textarea.
  rewrite foldl_alter_lookup by apply NoDup_fst_map_to_list.
  rewrite lookup_fmap. case_decide as Hj; [done|].
  destruct (doc !! j) as [t|] eqn:Ht; [|done].
  exfalso. apply Hj. apply list_elem_of_fmap. exists (j, t).
  split; [done|]. by apply elem_of_map_to_list.
Qed.

Lemma setup_textarea_unbound (t : Textarea) :
  unbound t → bound (setup_textarea t).
Proof.
  intros [Hattr Hls]. unfold setup_textarea, hasAttribute.
  rewrite bool_decide_eq_false_2 by (rewrite Hattr; by intros [? ?]).
  split; cbn [attributes listeners setAttribute addEventListener_input].
  - rewrite lookup_insert_eq. by eexists.
  - by rewrite Hls.
Qed.

Lemma setup_textarea_marked (t : Textarea) :
  is_Some (attributes t !! data_nepali_enabled) → setup_textarea t = t.
Proof.
  intros Hattr. unfold setup_textarea, hasAttribute.
  by rewrite bool_decide_eq_true_2.
Qed.

Lemma setup_textarea_marks (t : Textarea) :
  is_Some (attributes (setup_textarea t) !! data_nepali_enabled).
Proof.
  unfold setup_textarea, hasAttribute. case_bool_decide as Hattr; [done|].
  cbn [attributes setAttribute addEventListener_input].
  rewrite lookup_insert_eq. by eexists.
Qed.

Lemma setup_textarea_idempotent (t : Textarea) :
  setup_textarea (setup_textarea t) = setup_textarea t.
Proof. apply setup_textarea_marked, setup_textarea_marks. Qed.

Lemma setup_textarea_binding (t : Textarea) :
  unbound t ∨ bound t → bound (setup_textarea t).
Proof.
  intros [Hun|Hb]; [by apply setup_textarea_unbound|].
  rewrite setup_textarea_marked; [done | apply Hb].
Qed.

(** ** The listener keeps the binding *)

Lemma onInput_binding (fuel k : nat) (t t' : Textarea) (log : list effect) :
  onInput fuel k t = Done (t', log) →
  attributes t' = attributes t ∧ listeners t' = listeners t.
Proof.
  intros Hrun. apply onInput_Done_inv in Hrun as [[= -> ->]|Hres]; [done|].
  unfold onInput_result in Hres. by case_bool_decide; injection Hres as -> ->.
Qed.

Lemma run_listeners_binding (fuel : nat) (ks : list nat) (t t' : Textarea)
    (log : list effect) :
  run_listeners (onInput fuel) ks t = Done (t', log) →
  attributes t' = attributes t ∧ listeners t' = listeners t.
Proof.
  revert t t' log. induction ks as [|k ks IH]; intros t t' log Hrun.
  - injection Hrun as <- <-. done.
  - cbn [run_listeners] in Hrun.
    apply outcome_bind_inv in Hrun as ([t1 log1] & Hk & Hrun).
    apply outcome_bind_inv in Hrun as ([t2 log2] & Hks & Hrun).
    injection Hrun as <- <-.
    apply onInput_binding in Hk as [Ha1 Hl1]. apply IH in Hks as [Ha2 Hl2].
    split; congruence.
Qed.

(** ** The life of the page *)

Lemma step_binding (doc doc' : gmap nat Textarea) :
  step doc doc' →
  map_Forall (λ _ t, unbound t ∨ bound t) doc →
  map_Forall (λ _ t, unbound t ∨ bound t) doc'.
Proof.
  intros Hstep Hinv. destruct Hstep as
    [doc|doc node t Hfresh Hun|doc node|doc node t t' Ht [Hattr Hls]
    |doc node t fuel t' log Ht Hrun].
  - unfold observer_callback. rewrite setupNepaliTyping_fmap.
    apply map_Forall_fmap. intros node t Ht. right.
    apply setup_textarea_binding. by apply (Hinv node).
  - apply map_Forall_insert_2; [by left | done].
  - by apply map_Forall_delete.
  - apply map_Forall_insert_2; [|done].
    destruct (Hinv node t Ht) as [[Ha Hl]|[Ha Hl]]; [left|right];
      split; congruence.
  - apply map_Forall_insert_2; [|done].
    apply run_listeners_binding in Hrun as [Ha Hl].
    destruct (Hinv node t Ht) as [[Ha' Hl']|[Ha' Hl']]; [left|right];
      split; congruence.
Qed.

Lemma reachable_binding (doc : gmap nat Textarea) :
  reachable doc → map_Forall (λ _ t, unbound t ∨ bound t) doc.
Proof.
  intros (doc0 & Hinit & Hsteps).
  assert (map_Forall (λ _ t, unbound t ∨ bound t) doc0) as Hinv.
  { intros node t Ht. left. by apply (Hinit node). }
  clear Hinit. induction Hsteps as [|doc1 doc2 doc3 Hstep _ IH]; [done|].
  apply IH. by eapply step_binding.
Qed.

(** Bound is terminal: whatever the page does next, a bound text area that
    is still in the document is still bound, with the same single listener. *)
Lemma step_bound_stays (doc doc' : gmap nat Textarea) (node : nat)
    (t t' : Textarea) :
  step doc doc' → doc !! node = Some t → doc' !! node = Some t' →
  bound t → bound t'.
Proof.
  intros Hstep Ht Ht' Hb. destruct Hstep as
    [doc|doc n t0 Hfresh Hun|doc n|doc n t0 t1 Ht0 [Hattr Hls]
    |doc n t0 fuel t1 log Ht0 Hrun].
  - unfold observer_callback in Ht'. rewrite setupNepaliTyping_fmap in Ht'.
    rewrite lookup_fmap, Ht in Ht'. injection Ht' as <-.
    rewrite setup_textarea_marked; [done | apply Hb].
  - destruct (decide (n = node)) as [->|Hne]; [congruence|].
    rewrite lookup_insert_ne in Ht' by done. congruence.
  - destruct (decide (n = node)) as [->|Hne].
    + by rewrite lookup_delete_eq in Ht'.
    + rewrite lookup_delete_ne in Ht' by done. congruence.
  - destruct (decide (n = node)) as [->|Hne].
    + rewrite lookup_insert_eq in Ht'. injection Ht' as <-.
      assert (t0 = t) as -> by congruence.
      destruct Hb as [Ha Hl]. split; congruence.
    + rewrite lookup_insert_ne in Ht' by done. congruence.
  - destruct (decide (n = node)) as [->|Hne].
    + rewrite lookup_insert_eq in Ht'. injection Ht' as <-.
      assert (t0 = t) as -> by congruence.
      apply run_listeners_binding in Hrun as [Ha Hl].
      destruct Hb as [Ha' Hl']. split; congruence.
    + rewrite lookup_insert_ne in Ht' by done. congruence.
Qed.

(** C8.  A discovery pass binds every text area it has not met and leaves
    every bound one exactly as it is, so repeating the pass changes nothing.
    In every state the page can reach, a text area either is unbound and has
    no listener of ours, or carries the marker and exactly one listener; after
    a pass all are bound; and a bound text area stays bound, with the same
    single listener, for as long as it is in the document. *)
Theorem bound_exactly_once :
  (∀ doc node t,
     doc !! node = Some t →
     setupNepaliTyping doc !! node = Some (setup_textarea t)
     ∧ (unbound t → bound (setup_textarea t))
     ∧ (bound t → setup_textarea t = t))
  ∧ (∀ doc, setupNepaliTyping (setupNepaliTyping doc) = setupNepaliTyping doc)
  ∧ (∀ doc,
       reachable doc →
       map_Forall (λ _ t, (unbound t ∧ length (listeners t) = 0)
                          ∨ (bound t ∧ length (listeners t) = 1)) doc
       ∧ map_Forall (λ _ t, bound t) (observer_callback doc)
       ∧ reachable (observer_callback doc))
  ∧ (∀ doc doc' node t t',
       step doc doc' → doc !! node = Some t → doc' !! node = Some t' →
       bound t → bound t' ∧ listeners t' = listeners t).
Proof.
  split; [|split; [|split]].
  - intros doc node t Ht. split; [|split].
    + by rewrite setupNepaliTyping_fmap, lookup_fmap, Ht.
    + apply setup_textarea_unbound.
    + intros [Hattr _]. by apply setup_textarea_marked.
  - intros doc. rewrite !setupNepaliTyping_fmap, <- map_fmap_compose.
    apply map_fmap_ext. intros node t _. apply setup_textarea_idempotent.
  - intros doc Hreach. pose proof (reachable_binding doc Hreach) as Hinv.
    split; [|split].
    + intros node t Ht. destruct (Hinv node t Ht) as [Hun|Hb].
      * left. split; [done|]. destruct Hun as [_ ->]. done.
      * right. split; [done|]. destruct Hb as [_ ->]. done.
    + unfold observer_callback. rewrite setupNepaliTyping_fmap.
      apply map_Forall_fmap. intros node t Ht.
      apply setup_textarea_binding. by apply (Hinv node).
    + destruct Hreach as (doc0 & Hinit & Hsteps). exists doc0.
      split; [done|]. eapply rtc_r; [exact Hsteps | apply step_scan].
  - intros doc doc' node t t' Hstep Ht Ht' Hb.
    pose proof (step_bound_stays _ _ _ _ _ Hstep Ht Ht' Hb) as Hb'.
    split; [done|]. destruct Hb as [_ ->]. by destruct Hb' as [_ ->].
Qed.

Lemma bound_exactly_once_witness :
  reachable {[ 7 := mkTextarea (js "ks") 2 2 ∅ [] ]}
  ∧ map_Forall (λ _ t, bound t)
      (observer_callback {[ 7 := mkTextarea (js "ks") 2 2 ∅ [] ]}).
Proof.
  assert (reachable {[ 7 := mkTextarea (js "ks") 2 2 ∅ [] ]}) as Hreach.
  { exists {[ 7 := mkTextarea (js "ks") 2 2 ∅ [] ]}. split; [|apply rtc_refl].
    apply map_Forall_singleton. split; reflexivity. }
  split; [exact Hreach|].
  exact (proj1 (proj2 (proj1 (proj2 (proj2 bound_exactly_once)) _ Hreach))).
Defined.

(** * Further properties of the conversion *)

Lemma keyToNep_question : keyToNep !! [0x3F%N] = Some [0x3F%N].
Proof. vm_compute. reflexivity. Qed.

Lemma keyToNep_no_control (c : N) : (c ≤ 0x20)%N → keyToNep !! [c] = None.
Proof.
  intros Hc. apply (N_range_Forall (λ c, keyToNep !! [c] = None) 0 33); [|lia].
  eapply bool_decide_unpack. vm_compute. reflexivity.
Qed.

Lemma transliterate_unit_fixed_iff (c : N) :
  transliterate_unit c = c ↔ ¬ convertible c.
Proof.
  unfold transliterate_unit, convertible.
  destruct (keyToNep !! [c]) as [v|] eqn:Hk.
  - destruct (keyToNep_lookup_inv _ _ Hk) as (c' & d & [= <-] & -> & Hc & Hd).
    split.
    + intros -> [_ Hne]. lia.
    + intros Hnot. destruct (decide (c = 0x3F%N)) as [->|Hne].
      * rewrite keyToNep_question in Hk. by injection Hk as <-.
      * exfalso. apply Hnot. split; [by eexists | done].
  - split; [|done]. intros _ [[? ?] _]. done.
Qed.

Lemma transliterate_fixed_iff (s : jsstring) :
  transliterate s = s ↔ Forall (λ c, ¬ convertible c) s.
Proof.
  rewrite transliterate_fmap. induction s as [|c s IH].
  - split; [constructor | done].
  - rewrite fmap_cons, Forall_cons, <- IH, <- transliterate_unit_fixed_iff.
    split; [intros [= ? ?]; done | intros [-> ->]; done].
Qed.

(** Converting a concatenation is concatenating the conversions: the listener
    may convert the whole value at each event and still agree with a
    conversion of each part. *)
Theorem romanToNepali_app (s1 s2 : jsstring) :
  ∃ r1 r2,
    romanToNepali s1 = Done r1 ∧ romanToNepali s2 = Done r2
    ∧ romanToNepali (s1 ++ s2) = Done (r1 ++ r2).
Proof.
  exists (transliterate s1), (transliterate s2).
  rewrite !romanToNepali_transliterate, !transliterate_fmap, fmap_app. done.
Qed.

(** The text before an offset converts to the text before that offset, and
    the text after it to the text after it: an offset into the value marks the
    same place before and after the conversion. *)
Theorem romanToNepali_take_drop (s : jsstring) (n : nat) :
  ∃ r,
    romanToNepali s = Done r
    ∧ romanToNepali (take n s) = Done (take n r)
    ∧ romanToNepali (drop n s) = Done (drop n r).
Proof.
  exists (transliterate s).
  rewrite !romanToNepali_transliterate, !transliterate_fmap.
  by rewrite fmap_take, fmap_drop.
Qed.

(** A string comes back unchanged exactly when it holds no key of the table
    other than the question mark. *)
Theorem romanToNepali_fixed_iff (s : jsstring) :
  romanToNepali s = Done s ↔ Forall (λ c, ¬ convertible c) s.
Proof.
  rewrite romanToNepali_transliterate, <- transliterate_fixed_iff.
  split; [by intros [= ?] | by intros ->].
Qed.

(** Code units outside ASCII (Devanagari already in the field, surrogate
    halves of emoji) and the space, line breaks and control characters are
    never altered. *)
Theorem romanToNepali_keeps_non_keys (s : jsstring) :
  Forall (λ c, (0x80 ≤ c)%N ∨ (c ≤ 0x20)%N) s → romanToNepali s = Done s.
Proof.
  intros Hs. rewrite romanToNepali_transliterate. f_equal.
  apply transliterate_fixed_iff.
  eapply Forall_impl; [exact Hs|]. intros c Hc [[v Hk] _].
  destruct (keyToNep_lookup_inv _ _ Hk) as (c' & d & [= <-] & -> & Hlt & _).
  destruct Hc as [Hc|Hc]; [lia|].
  by rewrite keyToNep_no_control in Hk.
Qed.

Lemma romanToNepali_fixed_iff_witness :
  romanToNepali [0x0915; 0x3F; 0x21]%N = Done [0x0915; 0x3F; 0x21]%N.
Proof.
  apply (proj2 (romanToNepali_fixed_iff [0x0915; 0x3F; 0x21]%N)).
  repeat constructor; intros [[v Hv] Hne]; revert Hv Hne;
    vm_compute; congruence.
Defined.

Lemma romanToNepali_keeps_non_keys_witness :
  romanToNepali [0xD83C; 0xDDF3; 0x20; 0x0A; 0x0928]%N
  = Done [0xD83C; 0xDDF3; 0x20; 0x0A; 0x0928]%N.
Proof.
  apply (romanToNepali_keeps_non_keys [0xD83C; 0xDDF3; 0x20; 0x0A; 0x0928]%N).
  repeat constructor; lia.
Defined.

Lemma transliterate_unit_inj_ascii (c d : N) :
  (c < 0x80)%N → (d < 0x80)%N →
  transliterate_unit c = transliterate_unit d → c = d.
Proof.
  intros Hc Hd.
  assert (Forall
            (λ c, Forall (λ d, transliterate_unit c = transliterate_unit d
                               → c = d)
                         (N.of_nat <$> seq (N.to_nat 0) 128))
            (N.of_nat <$> seq (N.to_nat 0) 128)) as Hall
    by (eapply bool_decide_unpack; vm_compute; reflexivity).
  pose proof (N_range_Forall _ 0 128 Hall c) as Hrow.
  apply (N_range_Forall _ 0 128 (Hrow ltac:(lia)) d). lia.
Qed.

Lemma transliterate_inj_ascii (s1 s2 : jsstring) :
  Forall (λ c, (c < 0x80)%N) s1 → Forall (λ c, (c < 0x80)%N) s2 →
  transliterate s1 = transliterate s2 → s1 = s2.
Proof.
  rewrite !transliterate_fmap. intros H1. revert s2.
  induction H1 as [|c s1 Hc _ IH]; intros s2 H2 Heq.
  - destruct s2; [done | discriminate].
  - destruct H2 as [|d s2 Hd H2]; [discriminate|].
    rewrite !fmap_cons in Heq. injection Heq as Hcd Hrest.
    f_equal; [by apply transliterate_unit_inj_ascii | by apply IH].
Qed.

(** Two different texts typed in ASCII never convert to the same text.  The
    conversion as a whole is not one-to-one: a key and its Devanagari value
    convert to the same character. *)
Theorem romanToNepali_injective_on_ascii :
  (∀ s1 s2,
     Forall (λ c, (c < 0x80)%N) s1 → Forall (λ c, (c < 0x80)%N) s2 →
     romanToNepali s1 = romanToNepali s2 → s1 = s2)
  ∧ (∃ s1 s2, s1 ≠ s2 ∧ romanToNepali s1 = romanToNepali s2).
Proof.
  split.
  - intros s1 s2 H1 H2. rewrite !romanToNepali_transliterate.
    intros [= Heq]. by apply transliterate_inj_ascii.
  - exists (js "a"), [0x093E%N]. split; [discriminate|].
    vm_compute. reflexivity.
Qed.

Lemma romanToNepali_injective_on_ascii_witness :
  js "ks" = [0x6B; 0x73]%N.
Proof.
  apply (proj1 romanToNepali_injective_on_ascii (js "ks") [0x6B; 0x73]%N).
  - repeat constructor.
  - repeat constructor.
  - reflexivity.
Defined.

(** Every entry written in the table is live: no key is listed twice, so a
    lookup of a listed key gives the value listed with it; and no two keys
    share a value. *)
Theorem keyToNep_entries_live :
  Forall (λ entry, keyToNep !! entry.1 = Some entry.2) keyToNep_entries
  ∧ NoDup keyToNep_entries.*1
  ∧ NoDup keyToNep_entries.*2
  ∧ (∀ k v, keyToNep !! k = Some v → (k, v) ∈ keyToNep_entries).
Proof.
  split; [|split; [|split]].
  - eapply bool_decide_unpack. vm_compute. reflexivity.
  - eapply bool_decide_unpack. vm_compute. reflexivity.
  - eapply bool_decide_unpack. vm_compute. reflexivity.
  - intros k v Hk. apply elem_of_map_to_list in Hk. revert k v Hk.
    assert (Forall (λ kv, kv ∈ keyToNep_entries) (map_to_list keyToNep)) as H.
    { eapply bool_decide_unpack. vm_compute. reflexivity. }
    rewrite Forall_forall in H. intros k v Hk. by apply H.
Qed.

Lemma keyToNep_entries_live_witness :
  (js "k", u 0x0915) ∈ keyToNep_entries.
Proof.
  apply (proj2 (proj2 (proj2 keyToNep_entries_live)) (js "k") (u 0x0915)).
  vm_compute. reflexivity.
Defined.

Lemma letters_digits_convertible (c : N) :
  (0x30 ≤ c ≤ 0x39 ∨ 0x41 ≤ c ≤ 0x5A ∨ 0x61 ≤ c ≤ 0x7A)%N → convertible c.
Proof.
  intros Hc.
  assert (Forall convertible (N.of_nat <$> seq 0x30 10)) as Hdigits
    by (eapply bool_decide_unpack; vm_compute; reflexivity).
  assert (Forall convertible (N.of_nat <$> seq 0x41 26)) as Hupper
    by (eapply bool_decide_unpack; vm_compute; reflexivity).
  assert (Forall convertible (N.of_nat <$> seq 0x61 26)) as Hlower
    by (eapply bool_decide_unpack; vm_compute; reflexivity).
  destruct Hc as [Hc|[Hc|Hc]].
  - apply (N_range_Forall convertible 0x30 10); [done | lia].
  - apply (N_range_Forall convertible 0x41 26); [done | lia].
  - apply (N_range_Forall convertible 0x61 26); [done | lia].
Qed.

(** What comes out holds no key that a further conversion would change; in
    particular no ASCII letter and no ASCII digit is left. *)
Theorem romanToNepali_leaves_no_key (s : jsstring) :
  ∃ r,
    romanToNepali s = Done r
    ∧ Forall (λ c, ¬ convertible c) r
    ∧ Forall (λ c, ¬ (0x30 ≤ c ≤ 0x39 ∨ 0x41 ≤ c ≤ 0x5A ∨ 0x61 ≤ c ≤ 0x7A)%N) r.
Proof.
  exists (transliterate s). split; [apply romanToNepali_transliterate|].
  assert (Forall (λ c, ¬ convertible c) (transliterate s)) as Hr
    by apply transliterate_fixed_iff, transliterate_idempotent.
  split; [done|].
  eapply Forall_impl; [exact Hr|]. intros c Hc Hrange.
  by apply Hc, letters_digits_convertible.
Qed.

(** * Further properties of the listener *)

Lemma value_onInput_result (t : Textarea) :
  value (onInput_result t).1 = transliterate (value t).
Proof.
  unfold onInput_result. case_bool_decide as Hfix; cbn [fst]; [done|].
  by rewrite value_mkTextarea, normalize_converted.
Qed.

(** A pass writes, and announces the write, exactly when the value holds a
    key that the conversion changes; either way the value it leaves is the
    conversion of the value it found. *)
Theorem onInput_writes_iff (fuel k : nat) (t : Textarea) :
  listeners t !! k = Some false →
  ∃ t' log,
    onInput (S (S fuel)) k t = Done (t', log)
    ∧ romanToNepali (value t) = Done (value t')
    ∧ (log = [] ↔ Forall (λ c, ¬ convertible c) (value t))
    ∧ (log = [] ∨ log = [ValueWritten (value t'); InputDispatched]).
Proof.
  intros Hk. exists (onInput_result t).1, (onInput_result t).2.
  split; [rewrite onInput_spec by done; by destruct (onInput_result t)|].
  rewrite value_onInput_result, romanToNepali_transliterate.
  split; [done|]. rewrite <- transliterate_fixed_iff.
  unfold onInput_result. case_bool_decide as Hfix; cbn [snd].
  - split; [done | by left].
  - split; [split; [discriminate | done] | by right].
Qed.

Lemma onInput_writes_iff_witness :
  ∃ t' log,
    onInput 2 0 (mkTextarea (js "k?") 1 1 ∅ [false]) = Done (t', log)
    ∧ romanToNepali (js "k?") = Done (value t').
Proof.
  destruct (onInput_writes_iff 0 0 (mkTextarea (js "k?") 1 1 ∅ [false])
              eq_refl) as (t' & log & Hrun & Hval & _).
  exists t', log. split; [exact Hrun | exact Hval].
Defined.

(** A pass keeps the length of the value and the selection start, provided
    the selection start lies within the text, as it does in a browser.  When
    the pass writes, the selection is collapsed at that offset; when it does
    not, the selection is as it was. *)
Theorem onInput_keeps_caret (fuel k : nat) (t : Textarea) :
  listeners t !! k = Some false →
  selection_start t ≤ length (value t) →
  ∃ t' log,
    onInput (S (S fuel)) k t = Done (t', log)
    ∧ length (value t') = length (value t)
    ∧ selectionStart t' = selectionStart t
    ∧ (log ≠ [] → selectionEnd t' = selectionStart t)
    ∧ (log = [] → selectionEnd t' = selectionEnd t).
Proof.
  intros Hk Hcaret. exists (onInput_result t).1, (onInput_result t).2.
  split; [rewrite onInput_spec by done; by destruct (onInput_result t)|].
  rewrite value_onInput_result, transliterate_fmap, length_fmap.
  split; [done|].
  unfold onInput_result. case_bool_decide as Hfix; cbn [fst snd]; [done|].
  unfold selectionStart, selectionEnd. cbn [selection_start selection_end].
  rewrite transliterate_fmap, length_fmap.
  repeat split; intros; try done; lia.
Qed.

Lemma onInput_keeps_caret_witness :
  ∃ t' log,
    onInput 2 0 (mkTextarea (js "namaste") 3 5 ∅ [false]) = Done (t', log)
    ∧ selectionStart t' = 3.
Proof.
  destruct (onInput_keeps_caret 0 0 (mkTextarea (js "namaste") 3 5 ∅ [false])
              eq_refl) as (t' & log & Hrun & _ & Hstart & _).
  - vm_compute. lia.
  - exists t', log. split; [exact Hrun | exact Hstart].
Defined.

(** A second pass right after a pass finds nothing to do. *)
Theorem onInput_twice (fuel fuel' k : nat) (t : Textarea) :
  listeners t !! k = Some false →
  ∃ t' log,
    onInput (S (S fuel)) k t = Done (t', log)
    ∧ onInput (S fuel') k t' = Done (t', []).
Proof.
  intros Hk. exists (onInput_result t).1, (onInput_result t).2.
  split; [rewrite onInput_spec by done; by destruct (onInput_result t)|].
  apply onInput_unchanged.
  - unfold onInput_result. by case_bool_decide.
  - rewrite value_onInput_result. apply transliterate_idempotent.
Qed.

Lemma onInput_twice_witness :
  ∃ t' log,
    onInput 2 0 (mkTextarea (js "ks") 2 2 ∅ [false]) = Done (t', log)
    ∧ onInput 1 0 t' = Done (t', []).
Proof.
  exact (onInput_twice 0 0 0 (mkTextarea (js "ks") 2 2 ∅ [false]) eq_refl).
Defined.

Lemma deliver_input_bound (fuel : nat) (t : Textarea) :
  bound t → deliver_input (S (S fuel)) t = Done (onInput_result t).
Proof.
  intros [_ Hls]. unfold deliver_input. rewrite Hls.
  cbn [length seq run_listeners].
  rewrite onInput_spec by (by rewrite Hls).
  destruct (onInput_result t) as [t' log].
  cbn [mbind outcome_bind mret outcome_ret]. by rewrite app_nil_r.
Qed.

(** An ['input'] event on a text area that has not been bound changes
    nothing; on a bound one it leaves the conversion of the value, and the
    text area is still bound. *)
Theorem deliver_input_effect (t : Textarea) :
  (unbound t → ∀ fuel, deliver_input fuel t = Done (t, []))
  ∧ (bound t →
     ∀ fuel, ∃ t' log,
       deliver_input (S (S fuel)) t = Done (t', log)
       ∧ romanToNepali (value t) = Done (value t')
       ∧ bound t').
Proof.
  split.
  - intros [_ Hls] fuel. unfold deliver_input. by rewrite Hls.
  - intros Hb fuel. exists (onInput_result t).1, (onInput_result t).2.
    split; [rewrite deliver_input_bound by done; by destruct (onInput_result t)|].
    rewrite value_onInput_result, romanToNepali_transliterate.
    split; [done|]. destruct Hb as [Ha Hl].
    unfold onInput_result. by case_bool_decide.
Qed.

Lemma deliver_input_effect_witness :
  deliver_input 0 (mkTextarea (js "ks") 2 2 ∅ [])
  = Done (mkTextarea (js "ks") 2 2 ∅ [], []).
Proof.
  apply (proj1 (deliver_input_effect (mkTextarea (js "ks") 2 2 ∅ []))).
  split; reflexivity.
Defined.

(** In any state the page can reach, once the observer has run, an ['input']
    event on any text area of the document leaves in it the conversion of
    what it held. *)
Theorem scanned_document_converts (doc : gmap nat Textarea) (node : nat)
    (t : Textarea) (fuel : nat) :
  reachable doc →
  observer_callback doc !! node = Some t →
  ∃ t' log,
    deliver_input (S (S fuel)) t = Done (t', log)
    ∧ romanToNepali (value t) = Done (value t').
Proof.
  intros Hreach Ht.
  assert (bound t) as Hb.
  { unfold observer_callback in Ht.
    rewrite setupNepaliTyping_fmap, lookup_fmap in Ht.
    destruct (doc !! node) as [t0|] eqn:Ht0; [|done]. injection Ht as <-.
    apply setup_textarea_binding. by apply (reachable_binding doc Hreach node). }
  exists (onInput_result t).1, (onInput_result t).2.
  split; [rewrite deliver_input_bound by done; by destruct (onInput_result t)|].
  by rewrite value_onInput_result, romanToNepali_transliterate.
Qed.

Lemma scanned_document_converts_witness :
  ∃ t' log,
    deliver_input 2 (setup_textarea (mkTextarea (js "ks") 2 2 ∅ []))
    = Done (t', log)
    ∧ romanToNepali (js "ks") = Done (value t').
Proof.
  apply (scanned_document_converts
           {[ 7 := mkTextarea (js "ks") 2 2 ∅ [] ]} 7).
  - exists {[ 7 := mkTextarea (js "ks") 2 2 ∅ [] ]}. split; [|apply rtc_refl].
    apply map_Forall_singleton. split; reflexivity.
  - vm_compute. reflexivity.
Defined.

(** * Further properties of discovery *)

Lemma setup_textarea_content (t : Textarea) :
  raw_value (setup_textarea t) = raw_value t
  ∧ selection_start (setup_textarea t) = selection_start t
  ∧ selection_end (setup_textarea t) = selection_end t
  ∧ attributes t ⊆ attributes (setup_textarea t)
  ∧ ∀ name, name ≠ data_nepali_enabled →
            attributes (setup_textarea t) !! name = attributes t !! name.
Proof.
  unfold setup_textarea, hasAttribute. case_bool_decide as Hattr; [done|].
  cbn [raw_value selection_start selection_end attributes setAttribute
       addEventListener_input].
  repeat split; try done.
  - apply insert_subseteq.
    destruct (attributes t !! data_nepali_enabled) eqn:Ha; [|done].
    exfalso. apply Hattr. by eexists.
  - intros name Hne. by rewrite lookup_insert_ne.
Qed.

(** A scan adds and removes no node and touches neither the text nor the
    selection of any text area, and it keeps every attribute a text area
    has: all it may change is the marker and the listeners. *)
Theorem setupNepaliTyping_keeps_content (doc : gmap nat Textarea) :
  dom (setupNepaliTyping doc) = dom doc
  ∧ ∀ node t,
      doc !! node = Some t →
      ∃ t', setupNepaliTyping doc !! node = Some t'
            ∧ value t' = value t
            ∧ selectionStart t' = selectionStart t
            ∧ selectionEnd t' = selectionEnd t
            ∧ attributes t ⊆ attributes t'
            ∧ ∀ name, name ≠ data_nepali_enabled →
                      attributes t' !! name = attributes t !! name.
Proof.
  rewrite setupNepaliTyping_fmap. split; [apply dom_fmap_L|].
  intros node t Ht. exists (setup_textarea t).
  rewrite lookup_fmap, Ht. split; [done|].
  destruct (setup_textarea_content t) as (Hraw & Hs & He & Hsub & Hother).
  unfold value, selectionStart, selectionEnd. rewrite Hraw, Hs, He. done.
Qed.

Lemma setupNepaliTyping_keeps_content_witness :
  ∃ t', setupNepaliTyping {[ 7 := mkTextarea (js "ks") 1 2 ∅ [] ]} !! 7
        = Some t'
        ∧ value t' = js "ks".
Proof.
  destruct (proj2 (setupNepaliTyping_keeps_content
                     {[ 7 := mkTextarea (js "ks") 1 2 ∅ [] ]})
              7 (mkTextarea (js "ks") 1 2 ∅ []) (lookup_singleton_eq 7 _))
    as (t' & Hlook & Hval & _).
  exists t'. split; [exact Hlook | exact Hval].
Defined.

(** A scan treats each text area on its own: scanning a document with one
    more node is scanning the document and setting up that node, scanning a
    document with one node less is scanning it and dropping the node, and a
    document without text areas is left as it is. *)
Theorem setupNepaliTyping_per_node (doc : gmap nat Textarea) (node : nat)
    (t : Textarea) :
  setupNepaliTyping (<[node := t]> doc)
  = <[node := setup_textarea t]> (setupNepaliTyping doc)
  ∧ setupNepaliTyping (delete node doc) = delete node (setupNepaliTyping doc)
  ∧ setupNepaliTyping (∅ : gmap nat Textarea) = ∅.
Proof.
  rewrite !setupNepaliTyping_fmap.
  split; [apply fmap_insert|]. split; [apply fmap_delete | apply fmap_empty].
Qed.

(** The marker alone decides: a text area that carries the attribute, with
    whatever value and whether or not a listener is attached, is skipped by
    every scan.  One that carries it without a listener is therefore never
    served: events on it change nothing, before and after any scan. *)
Theorem marked_textarea_skipped (doc : gmap nat Textarea) (node : nat)
    (t : Textarea) :
  doc !! node = Some t →
  is_Some (attributes t !! data_nepali_enabled) →
  setupNepaliTyping doc !! node = Some t
  ∧ (listeners t = [] → ∀ fuel, deliver_input fuel t = Done (t, [])).
Proof.
  intros Ht Hattr. split.
  - rewrite setupNepaliTyping_fmap, lookup_fmap, Ht. simpl.
    by rewrite setup_textarea_marked.
  - intros Hls fuel. unfold deliver_input. by rewrite Hls.
Qed.

Lemma marked_textarea_skipped_witness :
  setupNepaliTyping
    {[ 7 := mkTextarea (js "ks") 2 2 {[ data_nepali_enabled := js "false" ]} [] ]}
    !! 7
  = Some (mkTextarea (js "ks") 2 2 {[ data_nepali_enabled := js "false" ]} []).
Proof.
  assert (is_Some (attributes
            (mkTextarea (js "ks") 2 2
               {[ data_nepali_enabled := js "false" ]} [])
            !! data_nepali_enabled)) as Hattr
    by (vm_compute; eexists; reflexivity).
  exact (proj1 (marked_textarea_skipped
                  {[ 7 := mkTextarea (js "ks") 2 2
                            {[ data_nepali_enabled := js "false" ]} [] ]}
                  7 _ (lookup_singleton_eq 7 _) Hattr)).
Defined.

(** * Properties of the Streamlit script *)

Lemma truthy_b64encode (a : N) (data : list N) :
  truthy (Some (b64encode (a :: data))) = true.
Proof. destruct data as [|b [|c rest]]; reflexivity. Qed.

Lemma bool_decide_is_Some_Some (b : bool) :
  bool_decide (is_Some (Some b)) = true.
Proof. by apply bool_decide_eq_true_2. Qed.

Lemma bool_decide_is_Some_None : bool_decide (is_Some (@None bool)) = false.
Proof. apply bool_decide_eq_false_2. by intros [? ?]. Qed.

(** Running a piece of script on a world whose shape is known. *)
Ltac run :=
  cbn [emit session_contains session_set session_get raise st_rerun
       with_container page session_state negb fst snd app].

Ltac run_all H :=
  repeat (progress (unfold session_get; run;
                    rewrite ?H, ?bool_decide_is_Some_Some,
                      ?bool_decide_is_Some_None, ?lookup_insert_eq)).

(** A run of [main] from an empty page is what [main_result] spells out. *)
Lemma main_closed_form (e : env) (state : gmap string bool) :
  main e (mkWorld state []) = main_result e state.
Proof.
  unfold main, main_result, show_toggled, show_before, st_button,
    st_text_area, inject_custom_keyboard, image_to_base64_string,
    read_binary.
  fold (layout_file e).
  unfold mbind, mret, script_bind, script_ret.
  destruct (state !! "show_keyboard") as [b|] eqn:Hs;
  destruct (bool_decide (clicked e = Some "Show Keyboard Layout")) eqn:Hshow.
  all: run_all Hs.
  all: try destruct b.
  all: run_all Hs.
  all: try destruct (layout_file e) as [| |[|a data]].
  all: run_all Hs.
  all: try rewrite truthy_b64encode.
  all: run_all Hs.
  all: try destruct (bool_decide (clicked e = Some "Hide Keyboard Layout")).
  all: run_all Hs.
  all: unfold emit, raise, st_rerun, page_head, layout_missing,
         layout_container, py_str.
  all: cbn [negb default app page session_state id].
  all: rewrite ?insert_insert_eq, ?(insert_id _ _ _ Hs); reflexivity.
Qed.

(** Case analysis on a run of [main]. *)
Ltac main_cases e state :=
  rewrite (main_closed_form e state); unfold main_result;
  destruct (show_toggled e state) eqn:?;
  [ destruct (layout_file e) as [| |[|? ?]] eqn:?;
    [ | | | case_bool_decide ] | ].

(** Closing the cases: split, open the hypotheses, and conclude by equality
    reasoning. *)
Ltac settle :=
  repeat split; intros;
  repeat match goal with
         | H : _ ∧ _ |- _ => destruct H
         | H : ∃ _, _ |- _ => destruct H
         end;
  try discriminate; try congruence; eauto 6.

(** A run of [main] returns, or stops for a rerun, or fails on the layout
    image; the session state never makes it fail.  It fails exactly when the
    layout is to be shown and the image cannot be read for a reason other
    than its absence, and it stops for a rerun exactly when the layout is
    shown, over a non-empty image, and the click was on the hiding button. *)
Theorem main_signals (e : env) (state : gmap string bool) :
  let r := (main e (mkWorld state [])).1 in
  (r = Return () ∨ r = Raise OSError ∨ r = Raise RerunException)
  ∧ (r = Raise OSError
     ↔ show_toggled e state = true ∧ layout_file e = Unreadable)
  ∧ (r = Raise RerunException
     ↔ show_toggled e state = true
       ∧ clicked e = Some "Hide Keyboard Layout"
       ∧ ∃ a data, layout_file e = Contents (a :: data)).
Proof.
  main_cases e state; cbn [fst]; settle.
Qed.

Lemma main_signals_witness :
  (main (mkEnv None (λ _, Unreadable) "/app")
        (mkWorld {[ "show_keyboard" := true ]} [])).1
  = Raise OSError.
Proof.
  apply (proj2 (proj1 (proj2 (main_signals
           (mkEnv None (λ _, Unreadable) "/app")
           {[ "show_keyboard" := true ]})))).
  split; reflexivity.
Defined.

(** A run that returns has put the keyboard component on the page, once, as
    the last element; a run that does not return has not put it there at
    all.  Either way the page starts with the same five elements, the text
    area among them, and holds exactly one text area. *)
Theorem main_injects_keyboard (e : env) (state : gmap string bool) :
  let run := main e (mkWorld state []) in
  (run.1 = Return () →
   ∃ front, page run.2 = front ++ [ElComponentHtml 0]
            ∧ existsb is_keyboard front = false)
  ∧ (run.1 ≠ Return () → existsb is_keyboard (page run.2) = false)
  ∧ page_head `prefix_of` page run.2
  ∧ length (List.filter is_text_area (page run.2)) = 1.
Proof.
  main_cases e state; cbn [fst snd page].
  - split; [|split; [done|split; [by eexists | reflexivity]]].
    intros _. exists (page_head ++ [layout_missing e]). by split.
  - split; [done|]. split; [done|]. split; [|reflexivity].
    exists []. by rewrite app_nil_r.
  - split; [|split; [done|split; [by eexists | reflexivity]]].
    intros _. exists page_head. by split.
  - split; [done|]. split; [done|]. split; [by eexists | reflexivity].
  - split; [|split; [done|split; [by eexists | reflexivity]]].
    intros _. eexists (page_head ++ [layout_container _]). by split.
  - split; [|split; [done|split; [by eexists | reflexivity]]].
    intros _. exists page_head. by split.
Qed.

Lemma main_injects_keyboard_witness :
  existsb is_keyboard
    (page (main (mkEnv None (λ _, Unreadable) "/app")
                (mkWorld {[ "show_keyboard" := true ]} [])).2)
  = false.
Proof.
  apply (proj1 (proj2 (main_injects_keyboard
           (mkEnv None (λ _, Unreadable) "/app")
           {[ "show_keyboard" := true ]}))).
  vm_compute. discriminate.
Defined.

Lemma main_state (e : env) (state : gmap string bool) :
  (main e (mkWorld state [])).1 ≠ Raise RerunException →
  session_state (main e (mkWorld state [])).2
  = <["show_keyboard" := show_toggled e state]> state.
Proof. main_cases e state; cbn [fst snd session_state]; done. Qed.

Lemma main_no_rerun (e : env) (state : gmap string bool) :
  clicked e ≠ Some "Hide Keyboard Layout" →
  (main e (mkWorld state [])).1 ≠ Raise RerunException.
Proof. main_cases e state; cbn [fst]; done. Qed.

(** What a run does to [st.session_state].  Of the entries that assignments
    make, only [show_keyboard] changes: it is false after a run that stops
    for a rerun, and otherwise what it was (false when absent), negated when
    the click was on the first button.  The one widget with a key is the text
    area, so at the end of a run the keys are those there were, with
    [show_keyboard] and [nepali_input_area]. *)
Theorem main_session_state (e : env) (state : gmap string bool) :
  let run := main e (mkWorld state []) in
  (run.1 = Raise RerunException →
   session_state run.2 !! "show_keyboard" = Some false)
  ∧ (run.1 ≠ Raise RerunException →
     session_state run.2 !! "show_keyboard" = Some (show_toggled e state))
  ∧ (∀ key, key ≠ "show_keyboard" →
            session_state run.2 !! key = state !! key)
  ∧ widget_keys (page run.2) = ["nepali_input_area"]
  ∧ session_keys run.2
    = dom state ∪ {[ "show_keyboard"; "nepali_input_area" ]}.
Proof.
  main_cases e state; unfold session_keys; cbn [fst snd session_state page];
    (split; [intros; try done; by rewrite lookup_insert_eq|]);
    (split; [intros; try done; by rewrite lookup_insert_eq|]);
    (split; [intros key Hkey; by rewrite lookup_insert_ne|]);
    (split; [reflexivity|]);
    rewrite dom_insert_L;
    unfold page_head, layout_missing, layout_container, widget_keys;
    cbn [app flat_map widget_keys_of list_to_set];
    apply set_eq; intros key;
    repeat rewrite elem_of_union; rewrite elem_of_empty; tauto.
Qed.

Lemma main_session_state_witness :
  session_state
    (main (mkEnv (Some "Show Keyboard Layout") (λ _, NoSuchFile) "/app")
          (mkWorld ∅ [])).2 !! "show_keyboard"
  = Some (show_toggled
            (mkEnv (Some "Show Keyboard Layout") (λ _, NoSuchFile) "/app") ∅).
Proof.
  apply (proj1 (proj2 (main_session_state
           (mkEnv (Some "Show Keyboard Layout") (λ _, NoSuchFile) "/app")
           ∅))).
  vm_compute. discriminate.
Defined.

(** Two clicks on the first button, one after the other, leave the layout
    shown or hidden as it was, whatever happens to the image in between. *)
Theorem show_clicked_twice (e1 e2 : env) (state : gmap string bool) :
  clicked e1 = Some "Show Keyboard Layout" →
  clicked e2 = Some "Show Keyboard Layout" →
  session_state
    (main e2 (mkWorld (session_state (main e1 (mkWorld state [])).2) [])).2
  = <["show_keyboard" := show_before state]> state.
Proof.
  intros H1 H2.
  rewrite (main_state e1) by (apply main_no_rerun; rewrite H1; discriminate).
  rewrite (main_state e2) by (apply main_no_rerun; rewrite H2; discriminate).
  rewrite insert_insert_eq. f_equal.
  unfold show_toggled, show_before. rewrite H1, H2, lookup_insert_eq.
  rewrite !bool_decide_eq_true_2 by done. cbn [default]. apply negb_involutive.
Qed.

Lemma show_clicked_twice_witness :
  session_state
    (main (mkEnv (Some "Show Keyboard Layout") (λ _, NoSuchFile) "/app")
       (mkWorld
          (session_state
             (main (mkEnv (Some "Show Keyboard Layout") (λ _, Unreadable) "/app")
                   (mkWorld {[ "show_keyboard" := true ]} [])).2) [])).2
  = <["show_keyboard" := true]> {[ "show_keyboard" := true ]}.
Proof.
  exact (show_clicked_twice
           (mkEnv (Some "Show Keyboard Layout") (λ _, Unreadable) "/app")
           (mkEnv (Some "Show Keyboard Layout") (λ _, NoSuchFile) "/app")
           {[ "show_keyboard" := true ]} eq_refl eq_refl).
Defined.

(** The layout image, with the button that hides it, is on the page exactly
    when the layout is to be shown and the image file is there and not empty;
    an error is on the page exactly when the layout is to be shown and the
    file is absent.  An empty file is passed over in silence: neither image
    nor error. *)
Theorem main_layout_shown (e : env) (state : gmap string bool) :
  let run := main e (mkWorld state []) in
  (existsb is_layout (page run.2) = true
   ↔ show_toggled e state = true
     ∧ ∃ a data, layout_file e = Contents (a :: data))
  ∧ (existsb is_error (page run.2) = true
     ↔ show_toggled e state = true ∧ layout_file e = NoSuchFile)
  ∧ (layout_file e = Contents [] →
     run.1 = Return ()
     ∧ existsb is_layout (page run.2) = false
     ∧ existsb is_error (page run.2) = false).
Proof.
  main_cases e state; cbn [fst snd page];
    unfold page_head, layout_missing, layout_container;
    cbn [app existsb is_layout is_error orb]; settle.
Qed.

Lemma main_layout_shown_witness :
  (main (mkEnv None (λ _, Contents []) "/app")
        (mkWorld {[ "show_keyboard" := true ]} [])).1
  = Return ().
Proof.
  apply (proj2 (proj2 (main_layout_shown
           (mkEnv None (λ _, Contents []) "/app")
           {[ "show_keyboard" := true ]}))).
  reflexivity.
Defined.



(** The paths that [main] looks up, for a script in a directory, in the root
    and in the current directory. *)
Example path_in_script_dir_cases :
  path_in_script_dir (mkEnv None (λ _, NoSuchFile) "/app") "layout.png"
  = "/app/layout.png"
  ∧ path_in_script_dir (mkEnv None (λ _, NoSuchFile) "/") "layout.png"
    = "/layout.png"
  ∧ path_in_script_dir (mkEnv None (λ _, NoSuchFile) ".") "layout.png"
    = "layout.png".
Proof. repeat split; vm_compute; reflexivity. Qed.

Lemma interact_unfold (fuel : nat) (e : env) (state : gmap string bool) :
  interact (S fuel) e state
  = match main e (mkWorld state []) with
    | (Raise RerunException, w) =>
        interact fuel (mkEnv None (files e) (script_dir e)) (session_state w)
    | finished => Done finished
    end.
Proof. reflexivity. Qed.

(** The run that follows a rerun: no click, layout hidden. *)
Lemma main_after_rerun (e : env) (state : gmap string bool) :
  main (mkEnv None (files e) (script_dir e))
       (mkWorld (<["show_keyboard" := false]> state) [])
  = (Return (),
     mkWorld (<["show_keyboard" := false]> state)
             (page_head ++ [ElComponentHtml 0])).
Proof.
  rewrite main_closed_form. unfold main_result, show_toggled, show_before.
  cbn [clicked]. rewrite bool_decide_eq_false_2 by discriminate.
  rewrite lookup_insert_eq. cbn [default]. by rewrite insert_insert_eq.
Qed.

(** An interaction takes at most two runs: a rerun is never followed by
    another.  It ends with a run that returned, or with the failure to read
    the layout image.  When the first run stops for a rerun, the second
    returns with the layout hidden and the keyboard component on the page. *)
Theorem interact_settles (e : env) (state : gmap string bool) :
  ∃ r w,
    (∀ fuel, interact (S (S fuel)) e state = Done (r, w))
    ∧ (r = Return () ∨ r = Raise OSError)
    ∧ ((main e (mkWorld state [])).1 = Raise RerunException →
       r = Return ()
       ∧ session_state w = <["show_keyboard" := false]> state
       ∧ page w = page_head ++ [ElComponentHtml 0]).
Proof.
  pose proof (main_closed_form e state) as Hrun. unfold main_result in Hrun.
  destruct (show_toggled e state) eqn:Hshow;
    [destruct (layout_file e) as [| |[|a data]] eqn:Hfile;
     [ | | | case_bool_decide as Hhide ] | ].
  4:{ eexists _, _. split.
      - intros fuel. rewrite interact_unfold, Hrun. cbn [session_state].
        rewrite interact_unfold, main_after_rerun. reflexivity.
      - split; [by left|]. intros _. done. }
  all: eexists _, _; split;
    [ intros fuel; rewrite interact_unfold, Hrun; reflexivity
    | rewrite Hrun; cbn [fst]; split; [auto | discriminate] ].
Qed.

Lemma interact_settles_witness :
  ∃ r w,
    interact 2 (mkEnv (Some "Hide Keyboard Layout") (λ _, Contents [80]%N) "/app")
               {[ "show_keyboard" := true ]}
    = Done (r, w)
    ∧ r = Return ().
Proof.
  destruct (interact_settles
              (mkEnv (Some "Hide Keyboard Layout") (λ _, Contents [80]%N) "/app")
              {[ "show_keyboard" := true ]})
    as (r & w & Hrun & _ & Hrerun).
  exists r, w. split; [exact (Hrun 0)|].
  apply Hrerun. vm_compute. reflexivity.
Defined.

(** A click on the hiding button, with the layout shown over a non-empty
    image, hides the layout: the interaction ends after the rerun with
    [show_keyboard] false, no image on the page, and the keyboard component
    in place.  A click that finds the layout not on the page, because it was
    not to be shown or the image is gone, changes nothing. *)
Theorem hide_click (e : env) (state : gmap string bool) :
  clicked e = Some "Hide Keyboard Layout" →
  (show_before state = true →
   (∃ a data, layout_file e = Contents (a :: data)) →
   ∀ fuel,
     interact (S (S fuel)) e state
     = Done (Return (),
             mkWorld (<["show_keyboard" := false]> state)
                     (page_head ++ [ElComponentHtml 0])))
  ∧ (¬ (show_before state = true
        ∧ ∃ a data, layout_file e = Contents (a :: data)) →
     (main e (mkWorld state [])).1 ≠ Raise RerunException
     ∧ session_state (main e (mkWorld state [])).2
       = <["show_keyboard" := show_before state]> state).
Proof.
  intros Hhide.
  assert (show_toggled e state = show_before state) as Htog.
  { unfold show_toggled. rewrite Hhide.
    by rewrite bool_decide_eq_false_2 by discriminate. }
  pose proof (main_closed_form e state) as Hrun. unfold main_result in Hrun.
  rewrite Htog in Hrun. split.
  - intros Hshow (a & data & Hfile) fuel.
    rewrite Hshow, Hfile in Hrun.
    rewrite bool_decide_eq_true_2 in Hrun by done.
    rewrite interact_unfold, Hrun. cbn [session_state].
    rewrite interact_unfold, main_after_rerun. reflexivity.
  - intros Hnot. rewrite Hrun.
    destruct (show_before state) eqn:Hshow; [|by split].
    destruct (layout_file e) as [| |[|a data]] eqn:Hfile; try by split.
    exfalso. apply Hnot. split; [done|]. by exists a, data.
Qed.

Lemma hide_click_witness :
  interact 2 (mkEnv (Some "Hide Keyboard Layout") (λ _, Contents [80]%N) "/app")
             {[ "show_keyboard" := true ]}
  = Done (Return (),
          mkWorld (<["show_keyboard" := false]> {[ "show_keyboard" := true ]})
                  (page_head ++ [ElComponentHtml 0])).
Proof.
  apply (proj1 (hide_click
           (mkEnv (Some "Hide Keyboard Layout") (λ _, Contents [80]%N) "/app")
           {[ "show_keyboard" := true ]} eq_refl)).
  - reflexivity.
  - by exists 80%N, [].
Defined.
